(** * a2d2_to_ros: timestamp conversion, calibration geometry, point-cloud
      dataset validation and timestamped value pairs

    A shallow embedding of [src/a2d2_to_ros/lib_a2d2_to_ros.cpp].

    - [uint64_t] and [uint32_t] values are integers of [Z]; every C++
      operation that can wrap is written with its reduction modulo [2^64]
      or [2^32].
    - [double] values are IEEE 754 binary64 numbers ([PrimFloat.float]).
    - [std::map<std::string, cnpy::NpyArray>] is an association list in
      key order, the order in which the C++ range-for visits the map.
    - A C++ exception is the [None] of an [option]; the diagnostic written
      by [X_ERROR] before a [return false] is the error value of a result. *)

From Stdlib Require Import ZArith Lia List String Ascii Bool PrimFloat.
From Stdlib Require Import Permutation Sorted.
Import ListNotations.

Open Scope Z_scope.

(* ================================================================== *)
(** * Part I: the program                                              *)
(* ================================================================== *)

(** ** Fixed-width integers *)

(** [std::numeric_limits<uint32_t>::max()] *)
Definition UINT32_MAX : Z := 4294967295.

(** [static_cast<uint32_t>(z)] of an unsigned value. *)
Definition to_uint32 (z : Z) : Z := z mod 2 ^ 32.

(** Result of a [uint64_t] operation, and [static_cast<uint64_t>(z)] of a
    signed 64-bit value. *)
Definition to_uint64 (z : Z) : Z := z mod 2 ^ 64.

Definition is_uint32 (z : Z) : Prop := 0 <= z < 2 ^ 32.
Definition is_uint64 (z : Z) : Prop := 0 <= z < 2 ^ 64.
Definition is_int64 (z : Z) : Prop := - 2 ^ 63 <= z < 2 ^ 63.

Definition ONE_THOUSAND : Z := 1000.
Definition ONE_MILLION : Z := 1000000.

(** ** [ros::Time]

    The time type of roscpp: two [uint32_t] fields.  Its constructor from
    two [uint32_t] runs [normalizeSecNSec], which moves whole seconds out
    of the nanosecond field and throws when the seconds leave 32 bits.
    [operator<] compares seconds first, then nanoseconds. *)
Module ros.

Record Time : Type := mkTime { sec : Z; nsec : Z }.

Definition normalizeSecNSec (s ns : Z) : option (Z * Z) :=
  let nsec_part := ns mod 1000000000 in
  let sec_part := ns / 1000000000 in
  if UINT32_MAX <? s + sec_part then None
  else Some (to_uint32 (s + sec_part), to_uint32 nsec_part).

(** [ros::Time(uint32_t _sec, uint32_t _nsec)] *)
Definition Time_ctor (s ns : Z) : option Time :=
  match normalizeSecNSec s ns with
  | Some (s', ns') => Some (mkTime s' ns')
  | None => None
  end.

(** [TimeBase::operator<] *)
Definition lt (a b : Time) : bool :=
  if sec a <? sec b then true
  else if (sec a =? sec b) && (nsec a <? nsec b) then true
  else false.

(** [a <= b] as "not [b < a]": the order a comparison sort leaves
    between neighbours. *)
Definition le (a b : Time) : Prop := lt b a = false.

(** [TimeBase::toNSec] *)
Definition toNSec (t : Time) : Z := sec t * 1000000000 + nsec t.

Definition normalized (t : Time) : Prop :=
  is_uint32 (sec t) /\ 0 <= nsec t < 1000000000.

End ros.

(** ** Timestamp converter *)

Definition valid_ros_timestamp (time : Z) : bool :=
  let secs := time / ONE_MILLION in
  let boundary := UINT32_MAX in
  secs <=? boundary.

Definition a2d2_timestamp_to_ros_time (time : Z) : option ros.Time :=
  let truncated_secs := time / ONE_MILLION in
  let mu_secs := to_uint64 (time - to_uint64 (truncated_secs * ONE_MILLION)) in
  let n_secs := to_uint64 (mu_secs * ONE_THOUSAND) in
  ros.Time_ctor (to_uint32 truncated_secs) (to_uint32 n_secs).

(** ** Eigen: fixed-size vectors and matrices of [double]

    The operations of Eigen 3.3 that the geometry builder calls, on
    [Eigen::Vector3d] and [Eigen::Matrix3d], coefficient by coefficient.
    A three-coefficient sum is reduced as [c0 + (c1 + c2)], the order of
    Eigen's unrolled reduction. *)
Module Eigen.

Local Open Scope float_scope.

Record Vector3d : Type := mkVector3d { vx : float; vy : float; vz : float }.

(** A matrix is held by its columns, as [basis.col(i)] addresses it. *)
Record Matrix3d : Type :=
  mkMatrix3d { col0 : Vector3d; col1 : Vector3d; col2 : Vector3d }.

Definition Zero3 : Vector3d := mkVector3d 0 0 0.

(** [Matrix3d::setZero] *)
Definition setZero : Matrix3d := mkMatrix3d Zero3 Zero3 Zero3.

Definition sub (a b : Vector3d) : Vector3d :=
  mkVector3d (vx a - vx b) (vy a - vy b) (vz a - vz b).

Definition scale (k : float) (a : Vector3d) : Vector3d :=
  mkVector3d (k * vx a) (k * vy a) (k * vz a).

Definition div_scalar (a : Vector3d) (k : float) : Vector3d :=
  mkVector3d (vx a / k) (vy a / k) (vz a / k).

Definition dot (a b : Vector3d) : float :=
  vx a * vx b + (vy a * vy b + vz a * vz b).

Definition squaredNorm (a : Vector3d) : float :=
  vx a * vx a + (vy a * vy a + vz a * vz a).

Definition norm (a : Vector3d) : float := sqrt (squaredNorm a).

(** [numext::mini] *)
Definition mini (a b : float) : float := if b <? a then b else a.

(** [DenseBase::isApprox] on vectors *)
Definition isApprox (a b : Vector3d) (prec : float) : bool :=
  squaredNorm (sub a b)
    <=? prec * prec * mini (squaredNorm a) (squaredNorm b).

(** [MatrixBase::cross] *)
Definition cross (a b : Vector3d) : Vector3d :=
  mkVector3d (vy a * vz b - vz a * vy b)
             (vz a * vx b - vx a * vz b)
             (vx a * vy b - vy a * vx b).

(** [MatrixBase::normalized]: a vector of squared norm zero is returned
    as it is. *)
Definition normalized (a : Vector3d) : Vector3d :=
  let z := squaredNorm a in
  if 0 <? z then div_scalar a (sqrt z) else a.

Definition all_coeffs (p : float -> bool) (m : Matrix3d) : bool :=
  forallb (fun c => p (vx c) && p (vy c) && p (vz c))
          [col0 m; col1 m; col2 m].

(** [DenseBase::isZero(prec)]: every coefficient is at most [prec] in
    absolute value. *)
Definition isZero (m : Matrix3d) (prec : float) : bool :=
  all_coeffs (fun c => abs c <=? 1 * prec) m.

(** The columns are unit vectors, pairwise orthogonal, up to [eps] on
    each of the six scalar products. *)
Definition near (a b eps : float) : bool := abs (a - b) <=? eps.

Definition columns_orthonormal (m : Matrix3d) (eps : float) : bool :=
  near (dot (col0 m) (col0 m)) 1 eps
  && near (dot (col1 m) (col1 m)) 1 eps
  && near (dot (col2 m) (col2 m)) 1 eps
  && near (dot (col0 m) (col1 m)) 0 eps
  && near (dot (col0 m) (col2 m)) 0 eps
  && near (dot (col1 m) (col2 m)) 0 eps.

End Eigen.

(** ** Geometry builder *)

(** [EPS] of sensor_fusion_config.cpp, the double nearest to [1e-8]. *)
Definition EPS : float := 0x1.5798ee2308c3ap-27%float.

Definition vector_is_valid (v : Eigen.Vector3d) : bool :=
  is_finite (Eigen.norm v).

Definition axis_is_valid (axis : Eigen.Vector3d) (epsilon : float) : bool :=
  vector_is_valid axis && (epsilon <? Eigen.norm axis)%float.

Definition axes_are_valid (axis1 axis2 : Eigen.Vector3d) (epsilon : float)
  : bool :=
  let axis1_valid := axis_is_valid axis1 epsilon in
  let axis2_valid := axis_is_valid axis2 epsilon in
  let axes_not_equal := negb (Eigen.isApprox axis1 axis2 epsilon) in
  axis1_valid && axis2_valid && axes_not_equal.

Definition get_orthonormal_basis (X Y : Eigen.Vector3d) (epsilon : float)
  : Eigen.Matrix3d :=
  let basis := Eigen.setZero in
  if negb (axes_are_valid X Y epsilon) then basis
  else
    let Z := Eigen.cross X Y in
    let Y_ortho := Eigen.cross Z X in
    Eigen.mkMatrix3d (Eigen.normalized X)
                     (Eigen.normalized Y_ortho)
                     (Eigen.normalized Z).

(** ** Ego bounding box *)

Definition verify_ego_bbox_params
  (x_min x_max y_min y_max z_min z_max : float) : bool :=
  let vals := [x_min; x_max; y_min; y_max; z_min; z_max] in
  let all_finite := forallb is_finite vals in
  let x_ordered := (x_min <? x_max)%float in
  let y_ordered := (y_min <? y_max)%float in
  let z_ordered := (z_min <? z_max)%float in
  let all_ordered := x_ordered && y_ordered && z_ordered in
  all_finite && all_ordered.

(** [shape_msgs::SolidPrimitive] with the constants of its message
    definition. *)
Module shape_msgs.

Record SolidPrimitive : Type :=
  mkSolidPrimitive { type : Z; dimensions : list float }.

Definition BOX : Z := 1.
Definition BOX_X : nat := 0.
Definition BOX_Y : nat := 1.
Definition BOX_Z : nat := 2.

(** The default-constructed message. *)
Definition empty : SolidPrimitive := mkSolidPrimitive 0 [].

End shape_msgs.

(** [v.resize(n)] on a [std::vector<double>]: cut, or pad with zeros. *)
Definition resize (n : nat) (v : list float) : list float :=
  firstn n v ++ repeat 0%float (n - List.length v).

(** [v[i] = d] on a [std::vector] or an array, for an index inside it. *)
Fixpoint store {T : Type} (l : list T) (i : nat) (v : T) : list T :=
  match l, i with
  | [], _ => []
  | _ :: t, O => v :: t
  | h :: t, S j => h :: store t j v
  end.

Definition build_ego_shape_msg
  (x_min x_max y_min y_max z_min z_max : float) : shape_msgs.SolidPrimitive :=
  let side_length := fun (min max : float) => (max - min)%float in
  let msg := shape_msgs.empty in
  let dims := resize 3 (shape_msgs.dimensions msg) in
  let dims := store dims shape_msgs.BOX_X (side_length x_min x_max) in
  let dims := store dims shape_msgs.BOX_Y (side_length y_min y_max) in
  let dims := store dims shape_msgs.BOX_Z (side_length z_min z_max) in
  shape_msgs.mkSolidPrimitive shape_msgs.BOX dims.

(** ** Timestamped value pair *)

Module std_msgs.

Record Header : Type :=
  mkHeader { seq : Z; stamp : ros.Time; frame_id : string }.

Record Float64 : Type := mkFloat64 { data : float }.

End std_msgs.

Record DataPair : Type :=
  mkDataPair { header : std_msgs.Header; value : std_msgs.Float64 }.

(** [DataPair::build]; an exception of the time conversion leaves it. *)
Definition DataPair_build (value : float) (time : Z) (frame_id : string)
  : option DataPair :=
  match a2d2_timestamp_to_ros_time time with
  | Some stamp =>
      Some (mkDataPair (std_msgs.mkHeader 0 stamp frame_id)
                       (std_msgs.mkFloat64 value))
  | None => None
  end.

(** [DataPairTimeComparator::operator()] *)
Definition DataPairTimeComparator (lhs rhs : DataPair) : bool :=
  ros.lt (std_msgs.stamp (header lhs)) (std_msgs.stamp (header rhs)).

(** The stamp of a pair, and a pair with another value and frame. *)
Definition stamp_of (p : DataPair) : ros.Time := std_msgs.stamp (header p).

Definition relabel (p : DataPair) (v : float) (f : string) : DataPair :=
  mkDataPair (std_msgs.mkHeader (std_msgs.seq (header p)) (stamp_of p) f)
             (std_msgs.mkFloat64 v).

(** Sorting a range with a comparator, as [std::sort(first, last, comp)]
    and [std::stable_sort] do with [DataPairTimeComparator]: a comparison
    sort, here by insertion after the elements that are not greater. *)
Section Sorting.

Context {A : Type} (comp : A -> A -> bool).

Fixpoint insert_sorted (x : A) (l : list A) : list A :=
  match l with
  | [] => [x]
  | y :: t => if comp x y then x :: y :: t else y :: insert_sorted x t
  end.

Fixpoint sort_by (l : list A) : list A :=
  match l with
  | [] => []
  | x :: t => insert_sorted x (sort_by t)
  end.

(** [a] is not after [b]: what the comparator guarantees between an
    element of a sorted range and any later one. *)
Definition not_after (a b : A) : Prop := comp b a = false.

End Sorting.

(** The microsecond timestamp of an argument triple of [DataPair::build]. *)
Definition input_time (i : float * Z * string) : Z := snd (fst i).

(** Every element of a list builds: the pairs, in the order of the list. *)
Fixpoint build_all (l : list (float * Z * string)) : option (list DataPair) :=
  match l with
  | [] => Some []
  | (v, us, f) :: t =>
      match DataPair_build v us f, build_all t with
      | Some p, Some ps => Some (p :: ps)
      | _, _ => None
      end
  end.

(** ** Point-cloud dataset *)

(** [cnpy::NpyArray]: a shape and a byte buffer that [data<T>()] reads as
    an array of [T].  The record holds the two readings that
    [verify_npz_structure] takes of a buffer: as [int64_t], which is also
    how the timestamps are read before their cast to [uint64_t], and as
    [npz::ReadTypes::Point], the floating-point element type. *)
Module cnpy.

Record NpyArray : Type :=
  mkNpyArray { shape : list Z; data_int64 : list Z; data_point : list float }.

End cnpy.

Module npz.

(** Modelled from the spec: the index constants of [npz::Fields] are
    declared in lib_a2d2_to_ros.hpp, which is not among the sources.
    Each [*_IDX] is the position in [get_fields] of the field it names;
    a shape is (rows, columns). *)
Module Fields.

Definition POINTS_IDX : nat := 0.
Definition AZIMUTH_IDX : nat := 1.
Definition BOUNDARY_IDX : nat := 2.
Definition COL_IDX : nat := 3.
Definition DEPTH_IDX : nat := 4.
Definition DISTANCE_IDX : nat := 5.
Definition ID_IDX : nat := 6.
Definition RECTIME_IDX : nat := 7.
Definition REFLECTANCE_IDX : nat := 8.
Definition ROW_IDX : nat := 9.
Definition TIMESTAMP_IDX : nat := 10.
Definition VALID_IDX : nat := 11.

Definition ROW_SHAPE_IDX : nat := 0.
Definition COL_SHAPE_IDX : nat := 1.

Definition get_fields : list string :=
  ["pcloud_points";           "pcloud_attr.azimuth";
   "pcloud_attr.boundary";    "pcloud_attr.col";
   "pcloud_attr.depth";       "pcloud_attr.distance";
   "pcloud_attr.lidar_id";    "pcloud_attr.rectime";
   "pcloud_attr.reflectance"; "pcloud_attr.row";
   "pcloud_attr.timestamp";   "pcloud_attr.valid"]%string.

(** [fields[i]] *)
Definition field (fields : list string) (i : nat) : string :=
  nth i fields EmptyString.

End Fields.

End npz.

(** [std::map<std::string, cnpy::NpyArray>]: the entries in the order of
    iteration, which is the strictly ascending order of the keys. *)
Definition NpzMap : Type := list (string * cnpy.NpyArray).

Fixpoint keys_ascending (keys : list string) : bool :=
  match keys with
  | [] => true
  | k :: t => forallb (String.ltb k) t && keys_ascending t
  end.

Definition well_ordered (m : NpzMap) : Prop :=
  keys_ascending (map fst m) = true.

(** [m.find(key)], with [None] for [std::end(m)]. *)
Fixpoint map_find (m : NpzMap) (key : string) : option cnpy.NpyArray :=
  match m with
  | [] => None
  | (k, a) :: t => if String.eqb k key then Some a else map_find t key
  end.

(** [shape[i]] *)
Definition dim (shape : list Z) (i : nat) : Z := nth i shape 0.

(** The elements [0 .. shape[ROW_SHAPE_IDX] - 1] of a reading, the ones
    that the loops over a field visit. *)
Definition visited {T : Type} (a : cnpy.NpyArray) (reading : list T) : list T :=
  firstn (Z.to_nat (dim (cnpy.shape a) npz.Fields.ROW_SHAPE_IDX)) reading.

(** Modelled from the spec: the template [all_non_negative<T>] is defined
    in lib_a2d2_to_ros.hpp, which is not among the sources.  A field is
    "entirely non-negative" when read as [T]; it fails when it "contains a
    negative value".  The elements are those of the rows of the field, as
    in the sibling loop of [any_lidar_points_invalid]. *)
Definition all_non_negative_int64 (field : cnpy.NpyArray) : bool :=
  forallb (fun v => negb (v <? 0)) (visited field (cnpy.data_int64 field)).

Definition all_non_negative_Point (field : cnpy.NpyArray) : bool :=
  forallb (fun v => negb (v <? 0)%float) (visited field (cnpy.data_point field)).

(** What [X_ERROR] reports before [verify_npz_structure] returns false,
    one constructor for each of its eight messages. *)
Inductive npz_error : Type :=
| FieldCountError (expected actual : nat)
| MissingFieldError (f : string)
| PointsDimensionsError (ndims : nat)
| PointsColumnsError (ncols : Z)
| FieldDimensionsError (field_name : string) (ndims : nat)
| FieldRowsError (field_name : string) (expected actual : Z)
| SignError (field_name : string)
| TimestampRangeError (t : Z).

(** How a run of the validator ends: [return true], [return false] after a
    report, or the [std::out_of_range] of [npz.at]. *)
Inductive outcome : Type :=
| Pass
| Fail (e : npz_error)
| Throw.

(** The loop over the timestamps: the first one that is not a valid ROS
    timestamp, after its cast to [uint64_t]. *)
Fixpoint first_unsupported_timestamp (data : list Z) : option Z :=
  match data with
  | [] => None
  | d :: rest =>
      let t := to_uint64 d in
      if negb (valid_ros_timestamp t) then Some t
      else first_unsupported_timestamp rest
  end.

(** The body of the loop over the entries of the map. *)
Definition check_field (fields : list string) (points_field_name : string)
  (points_shape : list Z) (p : string * cnpy.NpyArray) : outcome :=
  let field_name := fst p in
  let field_values := snd p in
  if String.eqb field_name points_field_name then Pass
  else
    let shape := cnpy.shape field_values in
    if negb (Nat.eqb (List.length shape) 1) then
      Fail (FieldDimensionsError field_name (List.length shape))
    else if negb (dim shape npz.Fields.ROW_SHAPE_IDX
                  =? dim points_shape npz.Fields.ROW_SHAPE_IDX) then
      Fail (FieldRowsError field_name
              (dim points_shape 0) (dim shape npz.Fields.ROW_SHAPE_IDX))
    else
      let sign_error := false in
      let is_timestamp :=
        String.eqb field_name (npz.Fields.field fields npz.Fields.TIMESTAMP_IDX) in
      let is_rectime :=
        String.eqb field_name (npz.Fields.field fields npz.Fields.RECTIME_IDX) in
      let is_lidar_id :=
        String.eqb field_name (npz.Fields.field fields npz.Fields.ID_IDX) in
      let sign_error :=
        if is_timestamp || is_rectime || is_lidar_id then
          let non_negative := all_non_negative_int64 field_values in
          sign_error || negb non_negative
        else sign_error in
      let is_depth :=
        String.eqb field_name (npz.Fields.field fields npz.Fields.DEPTH_IDX) in
      let is_distance :=
        String.eqb field_name (npz.Fields.field fields npz.Fields.DISTANCE_IDX) in
      let sign_error :=
        if is_depth || is_distance then
          let non_negative := all_non_negative_Point field_values in
          sign_error || negb non_negative
        else sign_error in
      if sign_error then Fail (SignError field_name)
      else if is_timestamp then
        match first_unsupported_timestamp
                (visited field_values (cnpy.data_int64 field_values)) with
        | Some t => Fail (TimestampRangeError t)
        | None => Pass
        end
      else Pass.

(** [for (const auto& p : npz) { ... }], left at the first [return]. *)
Fixpoint for_each_field (body : string * cnpy.NpyArray -> outcome) (m : NpzMap)
  : outcome :=
  match m with
  | [] => Pass
  | p :: rest =>
      match body p with
      | Pass => for_each_field body rest
      | stop => stop
      end
  end.

Definition verify_npz_structure_log (m : NpzMap) : outcome :=
  let fields := npz.Fields.get_fields in
  if negb (Nat.eqb (List.length m) (List.length fields)) then
    Fail (FieldCountError (List.length fields) (List.length m))
  else
    match find (fun f => match map_find m f with None => true | _ => false end)
               fields with
    | Some f => Fail (MissingFieldError f)
    | None =>
        let points_field_name :=
          npz.Fields.field fields npz.Fields.POINTS_IDX in
        match map_find m points_field_name with
        | None => Throw
        | Some points =>
            let points_shape := cnpy.shape points in
            if negb (Nat.eqb (List.length points_shape) 2) then
              Fail (PointsDimensionsError (List.length points_shape))
            else if negb (dim points_shape npz.Fields.COL_SHAPE_IDX =? 3) then
              Fail (PointsColumnsError
                      (dim points_shape npz.Fields.COL_SHAPE_IDX))
            else
              for_each_field
                (check_field fields points_field_name points_shape) m
        end
    end.

(** The boolean that the C++ function returns. *)
Definition verify_npz_structure (m : NpzMap) : bool :=
  match verify_npz_structure_log m with
  | Pass => true
  | _ => false
  end.

(** *** Vocabulary of the statements about the validator *)

Definition points_name : string := "pcloud_points".
Definition timestamp_name : string := "pcloud_attr.timestamp".
Definition rectime_name : string := "pcloud_attr.rectime".
Definition lidar_id_name : string := "pcloud_attr.lidar_id".
Definition depth_name : string := "pcloud_attr.depth".
Definition distance_name : string := "pcloud_attr.distance".
Definition row_name : string := "pcloud_attr.row".
Definition col_name : string := "pcloud_attr.col".

(** Checks 1 to 3 pass, and the points array has the shape [rows x 3]. *)
Definition passes_points_checks (m : NpzMap) (rows : Z) : Prop :=
  List.length m = 12%nat
  /\ (forall f, In f npz.Fields.get_fields -> map_find m f <> None)
  /\ exists points,
      map_find m points_name = Some points
      /\ cnpy.shape points = [rows; 3].

(** The loop body of the validator for a dataset whose points array has
    [rows] rows. *)
Definition field_check (rows : Z) : string * cnpy.NpyArray -> outcome :=
  check_field npz.Fields.get_fields points_name [rows; 3].

(** The field has one dimension, of the length of the points array. *)
Definition one_dimensional (a : cnpy.NpyArray) : Prop :=
  List.length (cnpy.shape a) = 1%nat.

Definition rows_match (rows : Z) (a : cnpy.NpyArray) : Prop :=
  dim (cnpy.shape a) 0 = rows.

(** Checks 1 to 5 pass: every field other than the points array has one
    dimension and as many elements as the points array has rows. *)
Definition passes_structural_checks (m : NpzMap) (rows : Z) : Prop :=
  passes_points_checks m rows
  /\ forall name a, In (name, a) m -> name <> points_name ->
                    one_dimensional a /\ rows_match rows a.

(** The fields whose [int64_t] reading, and those whose floating-point
    reading, is sign-checked. *)
Definition int64_checked (name : string) : bool :=
  String.eqb name timestamp_name || String.eqb name rectime_name
  || String.eqb name lidar_id_name.

Definition Point_checked (name : string) : bool :=
  String.eqb name depth_name || String.eqb name distance_name.

(** The value of [sign_error] after the two sign tests of the loop body,
    as one boolean. *)
Definition sign_error_of (name : string) (a : cnpy.NpyArray) : bool :=
  (int64_checked name && negb (all_non_negative_int64 a))
  || (Point_checked name && negb (all_non_negative_Point a)).

(** A field that is sign-checked holds a negative element. *)
Definition negative_int64 (a : cnpy.NpyArray) : Prop :=
  exists v, In v (visited a (cnpy.data_int64 a)) /\ v < 0.

Definition negative_Point (a : cnpy.NpyArray) : Prop :=
  exists v, In v (visited a (cnpy.data_point a)) /\ (v <? 0)%float = true.

Definition sign_violation (name : string) (a : cnpy.NpyArray) : Prop :=
  ((name = timestamp_name \/ name = rectime_name \/ name = lidar_id_name)
   /\ negative_int64 a)
  \/ ((name = depth_name \/ name = distance_name) /\ negative_Point a).

(** Edits of a dataset: the element [i] of the [int64_t] reading of a
    field, the readings of a field, the array under a key. *)
Definition store_int64 (i : nat) (v : Z) (a : cnpy.NpyArray) : cnpy.NpyArray :=
  cnpy.mkNpyArray (cnpy.shape a) (store (cnpy.data_int64 a) i v)
                  (cnpy.data_point a).

Definition with_data (ints : list Z) (points : list float) (a : cnpy.NpyArray)
  : cnpy.NpyArray :=
  cnpy.mkNpyArray (cnpy.shape a) ints points.

Definition map_update (m : NpzMap) (key : string)
  (f : cnpy.NpyArray -> cnpy.NpyArray) : NpzMap :=
  map (fun p => if String.eqb (fst p) key then (fst p, f (snd p)) else p) m.

(** *** Sample datasets

    A frame of three lidar points, and edits of it. *)

Definition attribute (ints : list Z) (points : list float) : cnpy.NpyArray :=
  cnpy.mkNpyArray [3] ints points.

Definition sample_dataset : NpzMap :=
  [("pcloud_attr.azimuth", attribute [0; 0; 0] [0.5; -0.25; 1.5]%float);
   ("pcloud_attr.boundary", attribute [0; 1; 0] [0; 0; 0]%float);
   ("pcloud_attr.col", attribute [0; 0; 0] [960.5; 12.25; 1800]%float);
   ("pcloud_attr.depth", attribute [0; 0; 0] [10.5; 22.75; 3.125]%float);
   ("pcloud_attr.distance", attribute [0; 0; 0] [11; 23.5; 4.25]%float);
   ("pcloud_attr.lidar_id", attribute [0; 3; 4] [0; 0; 0]%float);
   ("pcloud_attr.rectime",
     attribute [1554122338652775; 1554122338652776; 1554122338652777]
               [0; 0; 0]%float);
   ("pcloud_attr.reflectance", attribute [12; 40; 7] [0; 0; 0]%float);
   ("pcloud_attr.row", attribute [0; 0; 0] [600.5; 3.75; 1100]%float);
   ("pcloud_attr.timestamp",
     attribute [1554122338652775; 1554122338652776; 1554122338652777]
               [0; 0; 0]%float);
   ("pcloud_attr.valid", attribute [1; 1; 1] [0; 0; 0]%float);
   ("pcloud_points",
     cnpy.mkNpyArray [3; 3] []
       [1.5; 2.5; 0.25; -4; 8; 0.5; 16; -2; 1]%float)]%string.

(** The azimuth field with two dimensions and five rows. *)
Definition azimuth_5x2 : cnpy.NpyArray :=
  cnpy.mkNpyArray [5; 2] []
    [0.5; 0.5; 0.5; 0.5; 0.5; 0.5; 0.5; 0.5; 0.5; 0.5]%float.

Definition dataset_azimuth_5x2 : NpzMap :=
  map_update sample_dataset "pcloud_attr.azimuth" (fun _ => azimuth_5x2).

(** One negative depth; negative rows and columns. *)
Definition dataset_negative_depth : NpzMap :=
  map_update sample_dataset depth_name
    (with_data [0; 0; 0] [10.5; -22.75; 3.125]%float).

Definition dataset_negative_row_col : NpzMap :=
  map_update
    (map_update sample_dataset row_name
       (with_data [-1; -1; -1] [-600.5; -3.75; -1100]%float))
    col_name (with_data [-1; -1; -1] [-960.5; -12.25; -1800]%float).

(** The timestamp field of the sample. *)
Definition sample_timestamps : cnpy.NpyArray :=
  attribute [1554122338652775; 1554122338652776; 1554122338652777]
            [0; 0; 0]%float.

(** ** [std::string]

    The members of [std::string] that the naming functions call.  A
    position returned by [find] is [Some p], or [None] for [npos], the
    largest [size_t], which is above the size of every string. *)
Module std_string.

(** [s.find(str)]: the first position at which [str] occurs in [s]. *)
Fixpoint find (s str : string) : option nat :=
  if String.prefix str s then Some O
  else match s with
       | EmptyString => None
       | String _ rest => option_map S (find rest str)
       end.

Fixpoint take (n : nat) (s : string) : string :=
  match n, s with
  | S k, String c rest => String c (take k rest)
  | _, _ => EmptyString
  end.

Fixpoint drop (n : nat) (s : string) : string :=
  match n, s with
  | S k, String _ rest => drop k rest
  | _, _ => s
  end.

(** [s.replace(pos, len, str)]: throws [std::out_of_range] when [pos] is
    above the size of [s], as [npos] is; otherwise the characters from
    [pos], at most [len] of them, are replaced by [str]. *)
Definition replace (s : string) (pos : option nat) (len : nat) (str : string)
  : option string :=
  match pos with
  | None => None
  | Some p =>
      if (String.length s <? p)%nat then None
      else Some (take p s ++ str ++ drop (p + len) s)%string
  end.

(** [str] occurs in [s]. *)
Definition occurs (str s : string) : Prop :=
  exists pre post, s = (pre ++ str ++ post)%string.

End std_string.

(** ** Names of frames, sensors and units *)

Definition tf_frame_name (sensor_type sensor_frame : string) : string :=
  (sensor_type ++ "_" ++ sensor_frame)%string.

Definition camera_name_from_lidar_name (basename : string) : string :=
  let camera_basename := basename in
  let lidar := "lidar"%string in
  let pos := std_string.find basename lidar in
  match std_string.replace camera_basename pos (String.length lidar) "camera" with
  | Some replaced => replaced
  | None => EmptyString
  end.

Module sensors.

Module Frames.

Definition get_files : list string :=
  ["frontcenter"; "frontleft";  "frontright"; "sideleft";
   "sideright";   "rearcenter"; "rearleft";   "rearright"]%string.

Definition get_sensors : list string :=
  ["front_center"; "front_left";  "front_right"; "side_left";
   "side_right";   "rear_center"; "rear_left";   "rear_right"]%string.

End Frames.

End sensors.

(** [std::count_if] and the index [std::find_if(...) - std::begin(...)],
    which is the size of the range when no element is found. *)
Definition count_if {T : Type} (p : T -> bool) (l : list T) : nat :=
  List.length (filter p l).

Fixpoint find_if_index {T : Type} (p : T -> bool) (l : list T) : nat :=
  match l with
  | [] => O
  | x :: t => if p x then O else S (find_if_index p t)
  end.

Definition frame_from_filename (filename : string) : string :=
  let frames := sensors.Frames.get_files in
  let filename_has_frame := fun frame : string =>
    match std_string.find filename frame with
    | Some _ => true
    | None => false
    end in
  let num_found := count_if filename_has_frame frames in
  if negb (Nat.eqb num_found 1) then EmptyString
  else
    let idx := find_if_index filename_has_frame frames in
    nth idx frames EmptyString.

(** The loop [for (i = 0; i < frames.size(); ++i)] of
    [get_camera_name_from_frame_name], with [todo] iterations left. *)
Fixpoint camera_name_loop (todo i : nat) (name : string)
  (frames cameras : list string) : string :=
  match todo with
  | O => EmptyString
  | S todo' =>
      if String.eqb name (nth i frames EmptyString) then
        nth i cameras EmptyString
      else camera_name_loop todo' (S i) name frames cameras
  end.

Definition get_camera_name_from_frame_name (name : string) : string :=
  let cameras := sensors.Frames.get_sensors in
  let frames := sensors.Frames.get_files in
  camera_name_loop (List.length frames) 0 name frames cameras.

(** A name without its underscores. *)
Fixpoint without_underscores (s : string) : string :=
  match s with
  | EmptyString => EmptyString
  | String c rest =>
      if Ascii.eqb c "_" then without_underscores rest
      else String c (without_underscores rest)
  end.

(** The enumerators of [Units] that [get_unit_enum] returns. *)
Inductive Units : Type :=
| Units_null
| Unit_Bar
| Unit_PerCent
| Unit_DegreOfArc
| Unit_KiloMeterPerHour
| Unit_MeterPerSeconSquar
| Unit_DegreOfArcPerSecon
| Units_UNKNOWN.

Definition get_unit_enum (unit_name : string) : Units :=
  if String.eqb unit_name "null" then Units_null
  else if String.eqb unit_name "Unit_Bar" then Unit_Bar
  else if String.eqb unit_name "Unit_PerCent" then Unit_PerCent
  else if String.eqb unit_name "Unit_DegreOfArc" then Unit_DegreOfArc
  else if String.eqb unit_name "Unit_KiloMeterPerHour" then
    Unit_KiloMeterPerHour
  else if String.eqb unit_name "Unit_MeterPerSeconSquar" then
    Unit_MeterPerSeconSquar
  else if String.eqb unit_name "Unit_DegreOfArcPerSecon" then
    Unit_DegreOfArcPerSecon
  else Units_UNKNOWN.

Definition unit_names : list string :=
  ["null"; "Unit_Bar"; "Unit_PerCent"; "Unit_DegreOfArc";
   "Unit_KiloMeterPerHour"; "Unit_MeterPerSeconSquar";
   "Unit_DegreOfArcPerSecon"]%string.

(** ** Indices and flags of a point cloud *)

(** [flatten_2d_index] on [size_t]. *)
Definition flatten_2d_index (width row col : Z) : Z :=
  to_uint64 (to_uint64 (row * width) + col).



(** ** The check of a basis and its origin in sensor_fusion_config.cpp *)

(** [VERIFY_BASIS_ORIGIN]: [false] where the macro returns
    [EXIT_FAILURE], [true] where the program goes on. *)
Definition VERIFY_BASIS_ORIGIN (basis : Eigen.Matrix3d)
  (origin : Eigen.Vector3d) : bool :=
  if negb (vector_is_valid origin) then false
  else if Eigen.isZero basis 0%float then false
  else true.

(* ================================================================== *)
(** * Part II: properties                                              *)
(* ================================================================== *)

(** ** Timestamp converter *)

Section TimestampFacts.

Lemma Time_ctor_normalized (s ns : Z) :
  is_uint32 s -> 0 <= ns < 1000000000 ->
  ros.Time_ctor s ns = Some (ros.mkTime s ns).
Proof.
  unfold is_uint32, ros.Time_ctor, ros.normalizeSecNSec, to_uint32, UINT32_MAX.
  intros Hs Hns.
  rewrite (Z.div_small ns), (Z.mod_small ns) by lia.
  rewrite Z.add_0_r.
  destruct (Z.ltb_spec 4294967295 s) as [Hgt | _]; [lia |].
  now rewrite !Z.mod_small by lia.
Qed.

(** The three intermediate values of the conversion, without wrap-around. *)
Lemma conversion_steps (time : Z) :
  is_uint64 time ->
  to_uint64 (time - to_uint64 (time / ONE_MILLION * ONE_MILLION))
    = time mod ONE_MILLION
  /\ to_uint64 (time mod ONE_MILLION * ONE_THOUSAND)
    = time mod ONE_MILLION * ONE_THOUSAND
  /\ 0 <= time mod ONE_MILLION * ONE_THOUSAND <= 999999000.
Proof.
  unfold is_uint64, to_uint64, ONE_MILLION, ONE_THOUSAND. intros Ht.
  pose proof (Z.mod_pos_bound time 1000000 ltac:(lia)) as Hm.
  pose proof (Z.div_mod time 1000000 ltac:(lia)) as Hd.
  assert (Hq : 0 <= time / 1000000 * 1000000 <= time) by lia.
  rewrite (Z.mod_small (time / 1000000 * 1000000)) by lia.
  replace (time - time / 1000000 * 1000000) with (time mod 1000000) by lia.
  rewrite (Z.mod_small (time mod 1000000) (2 ^ 64)) by lia.
  rewrite (Z.mod_small (time mod 1000000 * 1000) (2 ^ 64)) by lia.
  repeat split; lia.
Qed.

Lemma a2d2_timestamp_to_ros_time_eq (time : Z) :
  is_uint64 time ->
  a2d2_timestamp_to_ros_time time
    = Some (ros.mkTime (to_uint32 (time / ONE_MILLION))
                       (time mod ONE_MILLION * ONE_THOUSAND)).
Proof.
  intros Ht. unfold a2d2_timestamp_to_ros_time.
  destruct (conversion_steps time Ht) as (Hmu & Hns & Hb).
  rewrite Hmu, Hns.
  assert (Hw : to_uint32 (time mod ONE_MILLION * ONE_THOUSAND)
               = time mod ONE_MILLION * ONE_THOUSAND).
  { unfold to_uint32. apply Z.mod_small. lia. }
  rewrite Hw.
  apply Time_ctor_normalized; [| lia].
  unfold is_uint32, to_uint32. apply Z.mod_pos_bound. lia.
Qed.

Lemma decompose_micro (s ms : Z) :
  0 <= ms < 1000000 ->
  (ONE_MILLION * s + ms) / ONE_MILLION = s
  /\ (ONE_MILLION * s + ms) mod ONE_MILLION = ms.
Proof.
  unfold ONE_MILLION. intros Hms.
  replace (1000000 * s + ms) with (ms + s * 1000000) by lia.
  rewrite Z.div_add, Z.mod_add by lia.
  rewrite Z.div_small, Z.mod_small by lia. lia.
Qed.

Lemma valid_ros_timestamp_true_iff (time : Z) :
  valid_ros_timestamp time = true <-> time / 1000000 <= 4294967295.
Proof.
  unfold valid_ros_timestamp, ONE_MILLION, UINT32_MAX. apply Z.leb_le.
Qed.

Lemma valid_ros_timestamp_late (time : Z) :
  4294967296000000 <= time -> valid_ros_timestamp time = false.
Proof.
  intros Hlate. apply not_true_iff_false.
  rewrite valid_ros_timestamp_true_iff.
  assert (Hq : 4294967296 <= time / 1000000).
  { apply Z.div_le_lower_bound; lia. }
  lia.
Qed.

End TimestampFacts.

(** C3. For every [uint64_t] [us] up to 4_294_967_295_999_999 the
    predicate [valid_ros_timestamp] answers true, from 4_294_967_296_000_000
    on it answers false; that is, it answers true exactly when the integer
    quotient [us / 1_000_000] is at most 4_294_967_295. *)
Theorem valid_ros_timestamp_range (us : Z) :
  is_uint64 us ->
  (us <= 4294967295999999 -> valid_ros_timestamp us = true)
  /\ (4294967296000000 <= us -> valid_ros_timestamp us = false)
  /\ (valid_ros_timestamp us = true <-> us / 1000000 <= 4294967295).
Proof.
  unfold is_uint64, valid_ros_timestamp, ONE_MILLION, UINT32_MAX. intros Hus.
  pose proof (Z.div_mod us 1000000 ltac:(lia)) as Hd.
  pose proof (Z.mod_pos_bound us 1000000 ltac:(lia)) as Hm.
  repeat split.
  - intros Hle. apply Z.leb_le. lia.
  - intros Hge. apply Z.leb_gt. lia.
  - apply Z.leb_le.
  - apply Z.leb_le.
Qed.

Lemma valid_ros_timestamp_range_witness :
  is_uint64 4294967295999999
  /\ valid_ros_timestamp 4294967295999999 = true.
Proof.
  split.
  - unfold is_uint64. lia.
  - refine (proj1 (valid_ros_timestamp_range 4294967295999999 _) _).
    + unfold is_uint64. lia.
    + lia.
Defined.

(** C4, as the claim is written, fails: with [s = 2^32] and [ms = 0] the
    input fits in [uint64_t] and the seconds field of the result is 0. *)
Lemma a2d2_timestamp_to_ros_time_wraps :
  0 <= 4294967296
  /\ 0 <= 0 < 1000000
  /\ is_uint64 (1000000 * 4294967296 + 0)
  /\ a2d2_timestamp_to_ros_time (1000000 * 4294967296 + 0)
       = Some (ros.mkTime 0 0)
  /\ a2d2_timestamp_to_ros_time (1000000 * 4294967296 + 0)
       <> Some (ros.mkTime 4294967296 (0 * 1000)).
Proof.
  unfold is_uint64. repeat split; try lia; try reflexivity.
  vm_compute. discriminate.
Qed.

(** C4, amended. For every [s] with [0 <= s <= 4_294_967_295] and every
    [ms] with [0 <= ms < 1_000_000], the conversion of
    [1_000_000 * s + ms] is exactly the pair [(s, ms * 1000)]; for a larger
    [s] whose input still fits in [uint64_t] the seconds field is
    [s mod 2^32] and the nanoseconds field is still [ms * 1000]. *)
Theorem a2d2_timestamp_to_ros_time_exact (s ms : Z) :
  0 <= s -> 0 <= ms < 1000000 -> is_uint64 (1000000 * s + ms) ->
  a2d2_timestamp_to_ros_time (1000000 * s + ms)
    = Some (ros.mkTime (s mod 2 ^ 32) (ms * 1000))
  /\ (s <= 4294967295 ->
      a2d2_timestamp_to_ros_time (1000000 * s + ms)
        = Some (ros.mkTime s (ms * 1000))).
Proof.
  intros Hs Hms Hfit.
  destruct (decompose_micro s ms Hms) as (Hq & Hr).
  unfold ONE_MILLION in Hq, Hr.
  assert (Hgen : a2d2_timestamp_to_ros_time (1000000 * s + ms)
                 = Some (ros.mkTime (s mod 2 ^ 32) (ms * 1000))).
  { rewrite (a2d2_timestamp_to_ros_time_eq _ Hfit).
    unfold ONE_MILLION, ONE_THOUSAND, to_uint32. now rewrite Hq, Hr. }
  split; [exact Hgen |].
  intros Hle. rewrite Hgen. now rewrite Z.mod_small by lia.
Qed.

Lemma a2d2_timestamp_to_ros_time_exact_witness :
  a2d2_timestamp_to_ros_time (1000000 * 1596000000 + 123456)
    = Some (ros.mkTime 1596000000 (123456 * 1000)).
Proof.
  refine (proj2 (a2d2_timestamp_to_ros_time_exact 1596000000 123456 _ _ _) _);
    unfold is_uint64; lia.
Defined.

(** C10. When [valid_ros_timestamp us] holds, both narrowing casts in
    [a2d2_timestamp_to_ros_time] keep their value: the quotient
    [us / 1_000_000] is at most 4_294_967_295 and is the seconds field, and
    [(us mod 1_000_000) * 1000] is at most 999_999_000 and is the
    nanoseconds field.  Without the precondition the seconds field is the
    quotient reduced modulo [2^32]. *)
Theorem a2d2_timestamp_casts_preserve (us : Z) :
  is_uint64 us ->
  (exists t, a2d2_timestamp_to_ros_time us = Some t
             /\ ros.sec t = (us / 1000000) mod 2 ^ 32
             /\ ros.nsec t = (us mod 1000000) * 1000
             /\ 0 <= (us mod 1000000) * 1000 <= 999999000
             /\ to_uint32 ((us mod 1000000) * 1000) = (us mod 1000000) * 1000)
  /\ (valid_ros_timestamp us = true ->
      0 <= us / 1000000 <= 4294967295
      /\ to_uint32 (us / 1000000) = us / 1000000
      /\ a2d2_timestamp_to_ros_time us
           = Some (ros.mkTime (us / 1000000) ((us mod 1000000) * 1000))).
Proof.
  intros Hus.
  pose proof (a2d2_timestamp_to_ros_time_eq us Hus) as Heq.
  destruct (conversion_steps us Hus) as (_ & _ & Hb).
  unfold ONE_MILLION, ONE_THOUSAND in *.
  split.
  - eexists. split; [exact Heq |]. cbn [ros.sec ros.nsec].
    repeat split; try lia.
    unfold to_uint32. apply Z.mod_small. lia.
  - intros Hv.
    apply valid_ros_timestamp_true_iff in Hv.
    assert (Hq : 0 <= us / 1000000).
    { apply Z.div_pos; unfold is_uint64 in Hus; lia. }
    assert (Hw : to_uint32 (us / 1000000) = us / 1000000).
    { unfold to_uint32. apply Z.mod_small. lia. }
    repeat split; try lia; try exact Hw.
    rewrite Heq. now rewrite Hw.
Qed.

Lemma a2d2_timestamp_casts_preserve_witness :
  valid_ros_timestamp 1596000000123456 = true
  /\ a2d2_timestamp_to_ros_time 1596000000123456
       = Some (ros.mkTime (1596000000123456 / 1000000)
                          ((1596000000123456 mod 1000000) * 1000)).
Proof.
  split; [reflexivity |].
  refine (proj2 (proj2 (proj2
            (a2d2_timestamp_casts_preserve 1596000000123456 _) _))).
  - unfold is_uint64. lia.
  - reflexivity.
Defined.

(** ** Geometry builder *)

Section GeometryFacts.

Local Open Scope float_scope.

(** The guard of [get_orthonormal_basis]: axes that fail
    [axes_are_valid] give the zero matrix. *)
Lemma get_orthonormal_basis_invalid (X Y : Eigen.Vector3d) (epsilon : float) :
  axes_are_valid X Y epsilon = false ->
  get_orthonormal_basis X Y epsilon = Eigen.setZero.
Proof.
  intros Hinv. unfold get_orthonormal_basis. now rewrite Hinv.
Qed.

(** Past the guard the three columns are the normalised [X], [Z x X]
    and [Z = X x Y]. *)
Lemma get_orthonormal_basis_valid (X Y : Eigen.Vector3d) (epsilon : float) :
  axes_are_valid X Y epsilon = true ->
  get_orthonormal_basis X Y epsilon
    = Eigen.mkMatrix3d
        (Eigen.normalized X)
        (Eigen.normalized (Eigen.cross (Eigen.cross X Y) X))
        (Eigen.normalized (Eigen.cross X Y)).
Proof.
  intros Hval. unfold get_orthonormal_basis. now rewrite Hval.
Qed.

Lemma norm_Zero3 : Eigen.norm Eigen.Zero3 = 0.
Proof. reflexivity. Qed.

(** A zero axis is rejected by every threshold that is not negative. *)
Lemma axis_is_valid_Zero3 (epsilon : float) :
  (epsilon <? 0) = false -> axis_is_valid Eigen.Zero3 epsilon = false.
Proof.
  intros Heps. unfold axis_is_valid. rewrite norm_Zero3, Heps.
  apply andb_false_r.
Qed.

Lemma get_orthonormal_basis_zero_axis (V : Eigen.Vector3d) (epsilon : float) :
  (epsilon <? 0) = false ->
  get_orthonormal_basis Eigen.Zero3 V epsilon = Eigen.setZero
  /\ get_orthonormal_basis V Eigen.Zero3 epsilon = Eigen.setZero.
Proof.
  intros Heps.
  pose proof (axis_is_valid_Zero3 epsilon Heps) as Hz.
  split; apply get_orthonormal_basis_invalid; unfold axes_are_valid;
    rewrite Hz.
  - reflexivity.
  - now rewrite andb_false_r.
Qed.

Lemma store_resize_3 (a b c : float) :
  store (store (store (resize 3 []) shape_msgs.BOX_X a)
               shape_msgs.BOX_Y b)
        shape_msgs.BOX_Z c
  = [a; b; c].
Proof. reflexivity. Qed.

Lemma build_ego_shape_msg_dimensions
  (x_min x_max y_min y_max z_min z_max : float) :
  shape_msgs.dimensions
    (build_ego_shape_msg x_min x_max y_min y_max z_min z_max)
  = [x_max - x_min; y_max - y_min; z_max - z_min].
Proof.
  unfold build_ego_shape_msg. cbn [shape_msgs.dimensions shape_msgs.empty].
  apply store_resize_3.
Qed.

End GeometryFacts.

(** C1. On the axes [X = (1,0,0)] and [Y = (2,0,0)] with the program's
    epsilon both axes have a finite norm above epsilon and are not
    approximately equal, so the guard lets them through; the cross product
    is zero, and the matrix returned has the first column [(1,0,0)] and two
    zero columns: it is neither the zero sentinel nor a matrix of three
    orthonormal columns. *)
Theorem get_orthonormal_basis_parallel_partial :
  let X := Eigen.mkVector3d 1 0 0 in
  let Y := Eigen.mkVector3d 2 0 0 in
  axis_is_valid X EPS = true
  /\ axis_is_valid Y EPS = true
  /\ Eigen.isApprox X Y EPS = false
  /\ get_orthonormal_basis X Y EPS
       = Eigen.mkMatrix3d (Eigen.mkVector3d 1 0 0) Eigen.Zero3 Eigen.Zero3
  /\ Eigen.isZero (get_orthonormal_basis X Y EPS) 0 = false
  /\ Eigen.columns_orthonormal (get_orthonormal_basis X Y EPS) EPS = false.
Proof.
  cbv zeta. repeat split; vm_compute; reflexivity.
Qed.

(** C2. [Y = 2 * X] is a positive scalar multiple of [X = (1,0,0)], both
    are finite and non-zero, and [get_orthonormal_basis] does not return
    the zero sentinel for them: the guard compares the axes for approximate
    equality only. *)
Theorem get_orthonormal_basis_scaled_axis :
  let X := Eigen.mkVector3d 1 0 0 in
  let Y := Eigen.scale 2 X in
  Y = Eigen.mkVector3d 2 0 0
  /\ axes_are_valid X Y EPS = true
  /\ get_orthonormal_basis X Y EPS <> Eigen.setZero
  /\ Eigen.col0 (get_orthonormal_basis X Y EPS) = Eigen.mkVector3d 1 0 0.
Proof.
  cbv zeta. repeat split; try (vm_compute; reflexivity).
  vm_compute. intros Heq.
  apply (f_equal (fun m => Eigen.vx (Eigen.col0 m))) in Heq.
  cbn in Heq.
  apply (f_equal (fun c => (c =? 1)%float)) in Heq.
  vm_compute in Heq. discriminate.
Qed.

(** C8. [verify_ego_bbox_params] answers true exactly when the six bounds
    are finite and each minimum is strictly below its maximum; when it
    does, the box built by [build_ego_shape_msg] has the dimensions
    [x_max - x_min], [y_max - y_min], [z_max - z_min].  The bounds
    [(-1,1,-1,1,-1,1)] pass with dimensions [(2,2,2)]; bounds that start
    with [(1,-1)] fail. *)
Theorem verify_ego_bbox_params_spec :
  (forall x_min x_max y_min y_max z_min z_max : float,
      verify_ego_bbox_params x_min x_max y_min y_max z_min z_max = true <->
      (is_finite x_min = true /\ is_finite x_max = true
       /\ is_finite y_min = true /\ is_finite y_max = true
       /\ is_finite z_min = true /\ is_finite z_max = true)
      /\ (x_min <? x_max)%float = true
      /\ (y_min <? y_max)%float = true
      /\ (z_min <? z_max)%float = true)
  /\ (forall x_min x_max y_min y_max z_min z_max : float,
         verify_ego_bbox_params x_min x_max y_min y_max z_min z_max = true ->
         shape_msgs.dimensions
           (build_ego_shape_msg x_min x_max y_min y_max z_min z_max)
         = [x_max - x_min; y_max - y_min; z_max - z_min]%float)
  /\ verify_ego_bbox_params (-1) 1 (-1) 1 (-1) 1 = true
  /\ shape_msgs.dimensions (build_ego_shape_msg (-1) 1 (-1) 1 (-1) 1)
     = [2; 2; 2]%float
  /\ (forall y_min y_max z_min z_max : float,
         verify_ego_bbox_params 1 (-1) y_min y_max z_min z_max = false).
Proof.
  repeat apply conj.
  - intros x_min x_max y_min y_max z_min z_max.
    unfold verify_ego_bbox_params. cbn [forallb].
    rewrite !andb_true_iff. tauto.
  - intros x_min x_max y_min y_max z_min z_max _.
    apply build_ego_shape_msg_dimensions.
  - reflexivity.
  - reflexivity.
  - intros y_min y_max z_min z_max.
    unfold verify_ego_bbox_params.
    change (1 <? -1)%float with false.
    cbn [andb]. apply andb_false_r.
Qed.

Lemma verify_ego_bbox_params_spec_witness :
  verify_ego_bbox_params (-1) 1 (-1) 1 (-1) 1 = true
  /\ shape_msgs.dimensions (build_ego_shape_msg (-1) 1 (-1) 1 (-1) 1)
     = [1 - -1; 1 - -1; 1 - -1]%float.
Proof.
  split; [reflexivity |].
  refine (proj1 (proj2 verify_ego_bbox_params_spec) (-1) 1 (-1) 1 (-1) 1 _)%float.
  reflexivity.
Defined.

(** ** Timestamped value pair *)

(** Case analysis on the integer comparisons of [ros.lt]. *)
Ltac ros_order :=
  unfold DataPairTimeComparator, ros.le, ros.lt in *;
  repeat match goal with
    | H : context [Z.ltb ?a ?b] |- _ => destruct (Z.ltb_spec a b)
    | H : context [Z.eqb ?a ?b] |- _ => destruct (Z.eqb_spec a b)
    | |- context [Z.ltb ?a ?b] => destruct (Z.ltb_spec a b)
    | |- context [Z.eqb ?a ?b] => destruct (Z.eqb_spec a b)
    end;
  cbn [andb] in *; try reflexivity; try discriminate; try lia.

Section TimeOrder.

Lemma ros_lt_iff (a b : ros.Time) :
  ros.lt a b = true <->
  (ros.sec a < ros.sec b
   \/ (ros.sec a = ros.sec b /\ ros.nsec a < ros.nsec b)).
Proof. split; intros H; ros_order. Qed.

Lemma ros_lt_irrefl (a : ros.Time) : ros.lt a a = false.
Proof. ros_order. Qed.

Lemma ros_lt_asym (a b : ros.Time) : ros.lt a b = true -> ros.lt b a = false.
Proof. intros H. ros_order. Qed.

Lemma ros_le_trans (a b c : ros.Time) :
  ros.le a b -> ros.le b c -> ros.le a c.
Proof. intros H1 H2. ros_order. Qed.

(** On normalised times [operator<] is the order of the nanosecond
    counts. *)
Lemma ros_lt_toNSec (a b : ros.Time) :
  ros.normalized a -> ros.normalized b ->
  ros.lt a b = (ros.toNSec a <? ros.toNSec b).
Proof.
  unfold ros.normalized, ros.toNSec, is_uint32. intros Ha Hb.
  destruct (Z.ltb_spec (ros.sec a * 1000000000 + ros.nsec a)
                       (ros.sec b * 1000000000 + ros.nsec b));
    ros_order.
Qed.

End TimeOrder.

Section SortingFacts.

Context {A : Type} (comp : A -> A -> bool).

Hypothesis comp_asym : forall a b, comp a b = true -> comp b a = false.
Hypothesis not_after_trans :
  forall a b c, not_after comp a b -> not_after comp b c -> not_after comp a c.

Lemma insert_sorted_perm (x : A) (l : list A) :
  Permutation (x :: l) (insert_sorted comp x l).
Proof.
  induction l as [| y t IH]; cbn.
  - apply Permutation_refl.
  - destruct (comp x y).
    + apply Permutation_refl.
    + eapply perm_trans; [apply perm_swap |].
      now apply perm_skip.
Qed.

Lemma sort_by_perm (l : list A) : Permutation l (sort_by comp l).
Proof.
  induction l as [| x t IH]; cbn.
  - apply perm_nil.
  - eapply perm_trans; [| apply insert_sorted_perm].
    now apply perm_skip.
Qed.

Lemma insert_sorted_sorted (x : A) (l : list A) :
  StronglySorted (not_after comp) l ->
  StronglySorted (not_after comp) (insert_sorted comp x l).
Proof.
  induction 1 as [| y t Hs IH Hall]; cbn.
  - repeat constructor.
  - destruct (comp x y) eqn:Hxy.
    + constructor; [now constructor |].
      assert (Hle : not_after comp x y) by (apply comp_asym; exact Hxy).
      constructor; [exact Hle |].
      eapply Forall_impl; [| exact Hall].
      intros z Hz. eapply not_after_trans; eassumption.
    + constructor; [exact IH |].
      apply (Permutation_Forall (insert_sorted_perm x t)).
      constructor; [exact Hxy | exact Hall].
Qed.

Lemma sort_by_sorted (l : list A) : StronglySorted (not_after comp) (sort_by comp l).
Proof.
  induction l as [| x t IH]; cbn.
  - constructor.
  - now apply insert_sorted_sorted.
Qed.

End SortingFacts.

Lemma StronglySorted_weaken {A : Type} (R S : A -> A -> Prop) (l : list A) :
  (forall a b, R a b -> S a b) -> StronglySorted R l -> StronglySorted S l.
Proof.
  intros HRS. induction 1 as [| x t _ IH Hall]; constructor; [exact IH |].
  eapply Forall_impl; [| exact Hall]. intros y. apply HRS.
Qed.

Section SortingMaps.

Context {A B : Type} (f : A -> B).
Context (compA : A -> A -> bool) (compB : B -> B -> bool).

Lemma insert_sorted_map (x : A) (l : list A) :
  (forall y, In y l -> compA x y = compB (f x) (f y)) ->
  map f (insert_sorted compA x l) = insert_sorted compB (f x) (map f l).
Proof.
  induction l as [| y t IH]; intros Hc; cbn; [reflexivity |].
  rewrite <- (Hc y (or_introl eq_refl)).
  destruct (compA x y); cbn; [reflexivity |].
  f_equal. apply IH. intros z Hz. apply Hc. now right.
Qed.

Lemma sort_by_map (l : list A) :
  (forall a b, In a l -> In b l -> compA a b = compB (f a) (f b)) ->
  map f (sort_by compA l) = sort_by compB (map f l).
Proof.
  induction l as [| x t IH]; intros Hc; cbn; [reflexivity |].
  rewrite insert_sorted_map.
  - f_equal. apply IH. intros a b Ha Hb. apply Hc; now right.
  - intros y Hy. apply Hc; [now left | right].
    eapply Permutation_in; [| exact Hy].
    apply Permutation_sym, sort_by_perm.
Qed.

End SortingMaps.

Section DataPairFacts.

Lemma DataPair_build_eq (v : float) (us : Z) (f : string) :
  is_uint64 us ->
  DataPair_build v us f
    = Some (mkDataPair
              (std_msgs.mkHeader
                 0
                 (ros.mkTime (to_uint32 (us / ONE_MILLION))
                             (us mod ONE_MILLION * ONE_THOUSAND))
                 f)
              (std_msgs.mkFloat64 v)).
Proof.
  intros Hus. unfold DataPair_build.
  now rewrite (a2d2_timestamp_to_ros_time_eq us Hus).
Qed.

(** The stamp of a built pair is normalised; for a representable
    timestamp it counts [us * 1000] nanoseconds. *)
Lemma DataPair_build_stamp (v : float) (us : Z) (f : string) (p : DataPair) :
  is_uint64 us ->
  DataPair_build v us f = Some p ->
  ros.normalized (stamp_of p)
  /\ (valid_ros_timestamp us = true -> ros.toNSec (stamp_of p) = us * 1000).
Proof.
  intros Hus Hb. rewrite (DataPair_build_eq v us f Hus) in Hb.
  injection Hb as <-. cbn.
  destruct (conversion_steps us Hus) as (_ & _ & Hns).
  unfold ros.normalized, ros.toNSec, is_uint32, to_uint32; cbn.
  unfold ONE_MILLION, ONE_THOUSAND in *.
  split.
  - split; [apply Z.mod_pos_bound; lia | lia].
  - intros Hv. apply valid_ros_timestamp_true_iff in Hv.
    assert (Hq : 0 <= us / 1000000)
      by (apply Z.div_pos; unfold is_uint64 in Hus; lia).
    rewrite Z.mod_small by lia.
    pose proof (Z.div_mod us 1000000 ltac:(lia)). lia.
Qed.

Lemma build_all_total (inputs : list (float * Z * string)) :
  Forall (fun i => is_uint64 (input_time i)) inputs ->
  exists ps, build_all inputs = Some ps.
Proof.
  induction 1 as [| [[v us] f] t Hus _ [ps IH]]; cbn.
  - now exists [].
  - cbn in Hus. rewrite (DataPair_build_eq v us f Hus), IH.
    eexists. reflexivity.
Qed.

Lemma build_all_stamps (inputs : list (float * Z * string)) :
  forall ps,
    Forall (fun i => is_uint64 (input_time i)) inputs ->
    Forall (fun i => valid_ros_timestamp (input_time i) = true) inputs ->
    build_all inputs = Some ps ->
    Forall (fun p => ros.normalized (stamp_of p)) ps
    /\ map (fun p => ros.toNSec (stamp_of p)) ps
       = map (fun i => input_time i * 1000) inputs.
Proof.
  induction inputs as [| [[v us] f] t IH]; intros ps Hu Hv Hb; cbn in Hb.
  - injection Hb as <-. split; constructor.
  - inversion Hu as [| ? ? Hus Hut]; subst.
    inversion Hv as [| ? ? Hvs Hvt]; subst.
    cbn in Hus, Hvs.
    destruct (DataPair_build v us f) as [p |] eqn:Hp; [| discriminate].
    destruct (build_all t) as [ps' |]; [| discriminate].
    injection Hb as <-.
    destruct (IH ps' Hut Hvt eq_refl) as (Hn & Hm).
    destruct (DataPair_build_stamp v us f p Hus Hp) as (Hnp & Hts).
    split.
    + now constructor.
    + cbn. now rewrite Hm, (Hts Hvs).
Qed.

Lemma sort_by_ltb_ascending (l : list Z) :
  StronglySorted Z.le (sort_by Z.ltb l).
Proof.
  eapply StronglySorted_weaken; [| apply (sort_by_sorted Z.ltb)].
  - unfold not_after. intros a b H. apply Z.ltb_ge. exact H.
  - intros a b H. apply Z.ltb_lt in H. apply Z.ltb_ge. lia.
  - unfold not_after. intros a b c H1 H2.
    apply Z.ltb_ge in H1, H2. apply Z.ltb_ge. lia.
Qed.

Lemma sort_DataPairs_stamps (l : list DataPair) :
  map stamp_of (sort_by DataPairTimeComparator l)
  = sort_by ros.lt (map stamp_of l).
Proof. apply sort_by_map. reflexivity. Qed.

End DataPairFacts.

(** C9. [DataPairTimeComparator] looks at the two stamps only: it is true
    exactly when the left stamp is strictly earlier (fewer seconds, or the
    same seconds and fewer nanoseconds), whatever the values and frame
    identifiers; two pairs with the same stamp are unordered, neither is
    less than the other.  Sorting a list of pairs with it permutes the list
    into ascending stamp order, and the stamps of the result depend on the
    stamps of the input only.  Every list of [uint64_t] microsecond
    timestamps builds; when the timestamps are representable the sorted
    stamps are the sorted microsecond timestamps, as for
    [5_000_000; 1_000_000; 3_000_000]. *)
Theorem DataPairTimeComparator_orders_by_stamp :
  (forall lhs rhs : DataPair,
      DataPairTimeComparator lhs rhs = true <->
      (ros.sec (stamp_of lhs) < ros.sec (stamp_of rhs)
       \/ (ros.sec (stamp_of lhs) = ros.sec (stamp_of rhs)
           /\ ros.nsec (stamp_of lhs) < ros.nsec (stamp_of rhs))))
  /\ (forall (lhs rhs : DataPair) (v1 v2 : float) (f1 f2 : string),
         DataPairTimeComparator (relabel lhs v1 f1) (relabel rhs v2 f2)
         = DataPairTimeComparator lhs rhs)
  /\ (forall a b : DataPair,
         stamp_of a = stamp_of b ->
         DataPairTimeComparator a b = false
         /\ DataPairTimeComparator b a = false)
  /\ (forall l : list DataPair,
         Permutation l (sort_by DataPairTimeComparator l)
         /\ StronglySorted (fun a b => ros.le (stamp_of a) (stamp_of b))
                           (sort_by DataPairTimeComparator l))
  /\ (forall l1 l2 : list DataPair,
         map stamp_of l1 = map stamp_of l2 ->
         map stamp_of (sort_by DataPairTimeComparator l1)
         = map stamp_of (sort_by DataPairTimeComparator l2))
  /\ (forall inputs : list (float * Z * string),
         Forall (fun i => is_uint64 (input_time i)) inputs ->
         exists ps,
           build_all inputs = Some ps
           /\ (Forall (fun i => valid_ros_timestamp (input_time i) = true)
                      inputs ->
               map (fun p => ros.toNSec (stamp_of p))
                   (sort_by DataPairTimeComparator ps)
               = map (fun us => us * 1000)
                     (sort_by Z.ltb (map input_time inputs))
               /\ StronglySorted Z.le (sort_by Z.ltb (map input_time inputs))))
  /\ (forall (v1 v2 v3 : float) (f1 f2 f3 : string),
         exists ps,
           build_all [(v1, 5000000, f1); (v2, 1000000, f2); (v3, 3000000, f3)]
           = Some ps
           /\ map stamp_of (sort_by DataPairTimeComparator ps)
              = [ros.mkTime 1 0; ros.mkTime 3 0; ros.mkTime 5 0]
           /\ map (fun p => std_msgs.frame_id (header p))
                  (sort_by DataPairTimeComparator ps)
              = [f2; f3; f1]).
Proof.
  repeat apply conj.
  - intros lhs rhs. apply ros_lt_iff.
  - reflexivity.
  - intros a b Hab. unfold DataPairTimeComparator, stamp_of in *.
    rewrite Hab. split; apply ros_lt_irrefl.
  - intros l. split.
    + apply sort_by_perm.
    + eapply StronglySorted_weaken;
        [| apply (sort_by_sorted DataPairTimeComparator)].
      * intros a b H. exact H.
      * intros a b. apply ros_lt_asym.
      * intros a b c. apply ros_le_trans.
  - intros l1 l2 Heq. now rewrite !sort_DataPairs_stamps, Heq.
  - intros inputs Hu.
    destruct (build_all_total inputs Hu) as [ps Hps].
    exists ps. split; [exact Hps |]. intros Hv.
    destruct (build_all_stamps inputs ps Hu Hv Hps) as (Hn & Hm).
    split; [| apply sort_by_ltb_ascending].
    rewrite (sort_by_map (fun p => ros.toNSec (stamp_of p))
                         DataPairTimeComparator Z.ltb).
    + rewrite Hm, <- (map_map input_time (fun us => us * 1000)).
      symmetry. apply sort_by_map.
      intros a b _ _.
      destruct (Z.ltb_spec a b), (Z.ltb_spec (a * 1000) (b * 1000));
        try reflexivity; lia.
    + intros a b Ha Hb. rewrite Forall_forall in Hn.
      apply ros_lt_toNSec; now apply Hn.
  - intros v1 v2 v3 f1 f2 f3. eexists. repeat split.
Qed.

Lemma DataPairTimeComparator_orders_by_stamp_witness :
  let a := mkDataPair (std_msgs.mkHeader 0 (ros.mkTime 7 500) "lidar_front"%string)
                      (std_msgs.mkFloat64 1%float) in
  let b := mkDataPair (std_msgs.mkHeader 0 (ros.mkTime 7 500) "camera_rear"%string)
                      (std_msgs.mkFloat64 2%float) in
  stamp_of a = stamp_of b
  /\ DataPairTimeComparator a b = false
  /\ DataPairTimeComparator b a = false.
Proof.
  cbv zeta. split; [reflexivity |].
  refine (proj1 (proj2 (proj2 DataPairTimeComparator_orders_by_stamp)) _ _ _).
  reflexivity.
Defined.

(** ** Dataset validator *)

Section MapFacts.

Lemma ltb_irrefl (s : string) : String.ltb s s = false.
Proof.
  unfold String.ltb.
  pose proof (String.compare_antisym s s) as Hanti.
  destruct (String.compare s s); [reflexivity | discriminate | reflexivity].
Qed.

Lemma keys_ascending_sorted (keys : list string) :
  keys_ascending keys = true ->
  StronglySorted (fun a b => String.ltb a b = true) keys.
Proof.
  induction keys as [| k t IH]; cbn; intros H; constructor.
  - apply IH. now apply andb_true_iff in H.
  - apply andb_true_iff in H. apply Forall_forall.
    now apply forallb_forall.
Qed.

(** A key of a map has one array. *)
Lemma well_ordered_unique (m : NpzMap) (k : string) (a b : cnpy.NpyArray) :
  well_ordered m -> In (k, a) m -> In (k, b) m -> a = b.
Proof.
  unfold well_ordered. intros Hm%keys_ascending_sorted.
  induction m as [| [k' c] t IH]; cbn in *; intros Ha Hb; [contradiction |].
  inversion Hm as [| ? ? Ht Hall]; subst.
  assert (Hfresh : forall d, In (k', d) t -> False).
  { intros d Hd. rewrite Forall_forall in Hall.
    specialize (Hall k' (in_map fst _ _ Hd)).
    now rewrite ltb_irrefl in Hall. }
  destruct Ha as [Ha | Ha], Hb as [Hb | Hb].
  - congruence.
  - injection Ha as -> ->. now destruct (Hfresh b).
  - injection Hb as -> ->. now destruct (Hfresh a).
  - now apply IH.
Qed.

(** In a map split around an entry, the keys of the later entries are
    above the key of that entry. *)
Lemma well_ordered_after (l1 l2 : NpzMap) (p q : string * cnpy.NpyArray) :
  well_ordered (l1 ++ p :: l2) -> In q l2 ->
  String.ltb (fst p) (fst q) = true.
Proof.
  unfold well_ordered. intros Hm%keys_ascending_sorted Hq.
  induction l1 as [| r t IH]; cbn in Hm; inversion Hm as [| ? ? Ht Hall]; subst.
  - rewrite Forall_forall in Hall. apply Hall. now apply in_map.
  - now apply IH.
Qed.

Lemma map_find_In (m : NpzMap) (k : string) (a : cnpy.NpyArray) :
  map_find m k = Some a -> In (k, a) m.
Proof.
  induction m as [| [k' c] t IH]; cbn; [discriminate |].
  destruct (String.eqb_spec k' k) as [-> | _].
  - intros [= ->]. now left.
  - intros H. right. now apply IH.
Qed.

Lemma map_find_update (m : NpzMap) (key k : string)
  (f : cnpy.NpyArray -> cnpy.NpyArray) :
  map_find (map_update m key f) k
  = match map_find m k with
    | Some a => Some (if String.eqb k key then f a else a)
    | None => None
    end.
Proof.
  induction m as [| [k' c] t IH]; cbn; [reflexivity |].
  destruct (String.eqb_spec k' key) as [-> | Hne]; cbn.
  - destruct (String.eqb_spec key k) as [-> | _]; [| exact IH].
    now rewrite String.eqb_refl.
  - destruct (String.eqb_spec k' k) as [-> | _]; [| exact IH].
    destruct (String.eqb_spec k key) as [-> | _];
      [contradiction | reflexivity].
Qed.

End MapFacts.

Section LoopFacts.

Variable body : string * cnpy.NpyArray -> outcome.

Lemma for_each_field_pass (m : NpzMap) :
  for_each_field body m = Pass <-> Forall (fun p => body p = Pass) m.
Proof.
  induction m as [| p t IH]; cbn.
  - split; [constructor | reflexivity].
  - destruct (body p) eqn:Hp.
    + rewrite IH. split; [now constructor | now inversion 1].
    + split; [discriminate | inversion 1; congruence].
    + split; [discriminate | inversion 1; congruence].
Qed.

(** The loop reports the failure of the first entry that fails. *)
Lemma for_each_field_fail (m : NpzMap) (e : npz_error) :
  (forall p, body p <> Throw) ->
  for_each_field body m = Fail e <->
  exists l1 p l2,
    m = l1 ++ p :: l2
    /\ Forall (fun q => body q = Pass) l1
    /\ body p = Fail e.
Proof.
  intros Hnt. induction m as [| p t IH]; cbn.
  - split; [discriminate |].
    intros (l1 & q & l2 & Heq & _). now destruct l1.
  - destruct (body p) eqn:Hp.
    + rewrite IH. split.
      * intros (l1 & q & l2 & -> & Hl1 & Hq).
        exists (p :: l1), q, l2. repeat split; [now constructor | exact Hq].
      * intros (l1 & q & l2 & Heq & Hl1 & Hq).
        destruct l1 as [| r l1]; cbn in Heq; injection Heq as <- ->.
        -- congruence.
        -- inversion Hl1; subst. now exists l1, q, l2.
    + split.
      * intros [= ->]. exists [], p, t. repeat split; [constructor | exact Hp].
      * intros (l1 & q & l2 & Heq & Hl1 & Hq).
        destruct l1 as [| r l1]; cbn in Heq; injection Heq as <- ->.
        -- congruence.
        -- inversion Hl1; subst. congruence.
    + now destruct (Hnt p).
Qed.

Lemma for_each_field_no_throw (m : NpzMap) :
  (forall p, body p <> Throw) -> for_each_field body m <> Throw.
Proof.
  intros Hnt. induction m as [| p t IH]; cbn; [discriminate |].
  destruct (body p) eqn:Hp; [exact IH | discriminate | now destruct (Hnt p)].
Qed.

End LoopFacts.

Section FieldFacts.

Lemma forallb_false {T : Type} (p : T -> bool) (l : list T) :
  forallb p l = false <-> exists x, In x l /\ p x = false.
Proof.
  induction l as [| h t IH]; cbn.
  - split; [discriminate | now intros (x & [] & _)].
  - rewrite andb_false_iff, IH. split.
    + intros [Hh | (x & Hx & Hp)]; [now exists h; auto | now exists x; auto].
    + intros (x & [-> | Hx] & Hp); [now left | right; now exists x].
Qed.

Lemma all_non_negative_int64_false (a : cnpy.NpyArray) :
  all_non_negative_int64 a = false <-> negative_int64 a.
Proof.
  unfold all_non_negative_int64, negative_int64. rewrite forallb_false.
  split; intros (v & Hin & Hv); exists v; split; try exact Hin.
  - apply negb_false_iff in Hv. now apply Z.ltb_lt.
  - apply negb_false_iff. now apply Z.ltb_lt.
Qed.

Lemma all_non_negative_Point_false (a : cnpy.NpyArray) :
  all_non_negative_Point a = false <-> negative_Point a.
Proof.
  unfold all_non_negative_Point, negative_Point. rewrite forallb_false.
  split; intros (v & Hin & Hv); exists v; split; try exact Hin.
  - now apply negb_false_iff in Hv.
  - now apply negb_false_iff.
Qed.

Lemma int64_checked_iff (name : string) :
  int64_checked name = true <->
  name = timestamp_name \/ name = rectime_name \/ name = lidar_id_name.
Proof.
  unfold int64_checked. rewrite !orb_true_iff, !String.eqb_eq. tauto.
Qed.

Lemma Point_checked_iff (name : string) :
  Point_checked name = true <-> name = depth_name \/ name = distance_name.
Proof.
  unfold Point_checked. rewrite !orb_true_iff, !String.eqb_eq. tauto.
Qed.

Lemma sign_error_of_iff (name : string) (a : cnpy.NpyArray) :
  sign_error_of name a = true <-> sign_violation name a.
Proof.
  unfold sign_error_of, sign_violation.
  rewrite orb_true_iff, !andb_true_iff, !negb_true_iff.
  now rewrite int64_checked_iff, Point_checked_iff,
    all_non_negative_int64_false, all_non_negative_Point_false.
Qed.

(** The loop body with the constants of [get_fields] looked up. *)
Lemma field_check_eq (rows : Z) (name : string) (a : cnpy.NpyArray) :
  field_check rows (name, a)
  = if String.eqb name points_name then Pass
    else if negb (Nat.eqb (List.length (cnpy.shape a)) 1) then
      Fail (FieldDimensionsError name (List.length (cnpy.shape a)))
    else if negb (dim (cnpy.shape a) 0 =? rows) then
      Fail (FieldRowsError name rows (dim (cnpy.shape a) 0))
    else if sign_error_of name a then Fail (SignError name)
    else if String.eqb name timestamp_name then
      match first_unsupported_timestamp (visited a (cnpy.data_int64 a)) with
      | Some t => Fail (TimestampRangeError t)
      | None => Pass
      end
    else Pass.
Proof.
  unfold field_check, check_field, sign_error_of, int64_checked, Point_checked.
  cbn [fst snd npz.Fields.field npz.Fields.get_fields nth dim
       npz.Fields.TIMESTAMP_IDX npz.Fields.RECTIME_IDX npz.Fields.ID_IDX
       npz.Fields.DEPTH_IDX npz.Fields.DISTANCE_IDX
       npz.Fields.ROW_SHAPE_IDX].
  fold timestamp_name rectime_name lidar_id_name depth_name distance_name.
  destruct (String.eqb name points_name); [reflexivity |].
  destruct (negb (Nat.eqb _ 1)); [reflexivity |].
  destruct (negb (_ =? rows)); [reflexivity |].
  destruct (String.eqb name timestamp_name), (String.eqb name rectime_name),
    (String.eqb name lidar_id_name), (String.eqb name depth_name),
    (String.eqb name distance_name),
    (all_non_negative_int64 a), (all_non_negative_Point a);
    reflexivity.
Qed.

Lemma field_check_no_throw (rows : Z) (p : string * cnpy.NpyArray) :
  field_check rows p <> Throw.
Proof.
  destruct p as [name a]. rewrite field_check_eq.
  repeat match goal with
    | |- (if ?c then _ else _) <> _ => destruct c
    | |- match ?c with Some _ => _ | None => _ end <> _ => destruct c
    end; discriminate.
Qed.

Lemma first_unsupported_timestamp_invalid (data : list Z) (t : Z) :
  first_unsupported_timestamp data = Some t ->
  valid_ros_timestamp t = false
  /\ exists d, In d data /\ t = to_uint64 d.
Proof.
  induction data as [| d rest IH]; cbn; [discriminate |].
  destruct (valid_ros_timestamp (to_uint64 d)) eqn:Hv; cbn.
  - intros H. destruct (IH H) as (Hinv & d' & Hin & Heq).
    split; [exact Hinv | exists d'; auto].
  - intros [= <-]. split; [exact Hv | exists d; auto].
Qed.

Lemma first_unsupported_timestamp_none (data : list Z) :
  first_unsupported_timestamp data = None <->
  Forall (fun d => valid_ros_timestamp (to_uint64 d) = true) data.
Proof.
  induction data as [| d rest IH]; cbn.
  - split; [constructor | reflexivity].
  - destruct (valid_ros_timestamp (to_uint64 d)) eqn:Hv; cbn.
    + rewrite IH. split; [now constructor | now inversion 1].
    + split; [discriminate | inversion 1; congruence].
Qed.

(** What a failure of the loop body says about the field: the checks
    before the one that failed have passed on it. *)
Lemma field_check_fail (rows : Z) (name : string) (a : cnpy.NpyArray)
  (e : npz_error) :
  field_check rows (name, a) = Fail e ->
  name <> points_name
  /\ match e with
     | FieldDimensionsError f n =>
         f = name /\ n = List.length (cnpy.shape a) /\ ~ one_dimensional a
     | FieldRowsError f expected actual =>
         f = name /\ expected = rows /\ actual = dim (cnpy.shape a) 0
         /\ one_dimensional a /\ ~ rows_match rows a
     | SignError f =>
         f = name /\ one_dimensional a /\ rows_match rows a
         /\ sign_violation name a
     | TimestampRangeError t =>
         name = timestamp_name /\ one_dimensional a /\ rows_match rows a
         /\ ~ sign_violation name a /\ valid_ros_timestamp t = false
         /\ exists d, In d (visited a (cnpy.data_int64 a)) /\ t = to_uint64 d
     | _ => False
     end.
Proof.
  rewrite field_check_eq. unfold one_dimensional, rows_match. intros H.
  destruct (String.eqb_spec name points_name) as [| Hnp]; [discriminate |].
  split; [exact Hnp |].
  destruct (Nat.eqb_spec (List.length (cnpy.shape a)) 1) as [Hd | Hd];
    cbn [negb] in H; [| injection H as <-; auto].
  destruct (Z.eqb_spec (dim (cnpy.shape a) 0) rows) as [Hr | Hr];
    cbn [negb] in H; [| injection H as <-; auto 6].
  destruct (sign_error_of name a) eqn:Hs.
  - injection H as <-. apply sign_error_of_iff in Hs. auto.
  - assert (Hns : ~ sign_violation name a).
    { intros Hv%sign_error_of_iff. congruence. }
    destruct (String.eqb_spec name timestamp_name) as [Hts |];
      [| discriminate].
    destruct (first_unsupported_timestamp _) as [t |] eqn:Ht;
      [| discriminate].
    injection H as <-.
    destruct (first_unsupported_timestamp_invalid _ _ Ht) as (Hinv & Hd').
    auto 8.
Qed.

End FieldFacts.

Section ValidatorFacts.

Lemma missing_field_none (m : NpzMap) :
  (forall f, In f npz.Fields.get_fields -> map_find m f <> None) ->
  find (fun f => match map_find m f with None => true | _ => false end)
       npz.Fields.get_fields = None.
Proof.
  intros Hpres.
  destruct (find _ npz.Fields.get_fields) as [f |] eqn:Hf; [| reflexivity].
  apply find_some in Hf. destruct Hf as (Hin & Hnone).
  specialize (Hpres f Hin). now destruct (map_find m f).
Qed.

(** Past checks 1 to 3 the validator is its loop over the fields. *)
Lemma verify_log_loop (m : NpzMap) (rows : Z) :
  passes_points_checks m rows ->
  verify_npz_structure_log m = for_each_field (field_check rows) m.
Proof.
  intros (Hlen & Hpres & points & Hfind & Hshape).
  unfold verify_npz_structure_log.
  rewrite Hlen, (missing_field_none m Hpres). cbn [List.length Nat.eqb negb].
  change (npz.Fields.field npz.Fields.get_fields npz.Fields.POINTS_IDX)
    with points_name.
  rewrite Hfind, Hshape. cbn [List.length Nat.eqb negb dim nth
                              npz.Fields.COL_SHAPE_IDX Z.eqb Pos.eqb].
  reflexivity.
Qed.


(** A run that does not stop in checks 1 to 3 has passed them. *)
Lemma verify_log_points_inv (m : NpzMap) (o : outcome) :
  verify_npz_structure_log m = o ->
  match o with
  | Pass | Fail (FieldDimensionsError _ _) | Fail (FieldRowsError _ _ _)
  | Fail (SignError _) | Fail (TimestampRangeError _) =>
      exists rows,
        passes_points_checks m rows
        /\ for_each_field (field_check rows) m = o
  | _ => True
  end.
Proof.
  unfold verify_npz_structure_log.
  destruct (Nat.eqb_spec (List.length m) (List.length npz.Fields.get_fields))
    as [Hlen | _]; cbn [negb]; [| now intros <-].
  destruct (find _ npz.Fields.get_fields) as [f |] eqn:Hf; [now intros <- |].
  change (npz.Fields.field npz.Fields.get_fields npz.Fields.POINTS_IDX)
    with points_name.
  destruct (map_find m points_name) as [points |] eqn:Hp; [| now intros <-].
  destruct (Nat.eqb_spec (List.length (cnpy.shape points)) 2) as [Hd | _];
    cbn [negb]; [| now intros <-].
  destruct (Z.eqb_spec (dim (cnpy.shape points) npz.Fields.COL_SHAPE_IDX) 3)
    as [Hc | _]; cbn [negb]; [| now intros <-].
  destruct (cnpy.shape points) as [| rows [| cols [| ? ?]]] eqn:Hshape;
    try discriminate Hd.
  cbn in Hc. subst cols.
  assert (Hpass : passes_points_checks m rows).
  { split; [exact Hlen | split].
    - intros g Hg Hnone. pose proof (find_none _ _ Hf g Hg) as Hfalse.
      cbv beta in Hfalse. now rewrite Hnone in Hfalse.
    - now exists points. }
  intros Ho.
  assert (Hloop : for_each_field (field_check rows) m = o) by exact Ho.
  destruct o as [| [] |]; try exact I; now exists rows.
Qed.

End ValidatorFacts.

(** Membership in a list given by its elements. *)
Ltac in_cases H :=
  repeat (destruct H as [H | H]; [subst |]); try contradiction.

Lemma dataset_azimuth_5x2_points_checks :
  passes_points_checks dataset_azimuth_5x2 3.
Proof.
  split; [reflexivity | split].
  - intros f Hf. cbn in Hf. in_cases Hf; discriminate.
  - eexists. split; reflexivity.
Qed.

Lemma first_unsupported_timestamp_first (pre post : list Z) (d : Z) :
  Forall (fun x => valid_ros_timestamp (to_uint64 x) = true) pre ->
  valid_ros_timestamp (to_uint64 d) = false ->
  first_unsupported_timestamp (pre ++ d :: post) = Some (to_uint64 d).
Proof.
  intros Hpre Hd. induction Hpre as [| x pre Hx _ IH]; cbn.
  - now rewrite Hd.
  - now rewrite Hx.
Qed.

(** What the loop body returns on a field, check by check: a check that
    is violated fails, once the checks before it have passed. *)
Lemma field_check_violations (rows : Z) (name : string) (a : cnpy.NpyArray) :
  name <> points_name ->
  (~ one_dimensional a ->
   field_check rows (name, a)
   = Fail (FieldDimensionsError name (List.length (cnpy.shape a))))
  /\ (one_dimensional a -> ~ rows_match rows a ->
      field_check rows (name, a)
      = Fail (FieldRowsError name rows (dim (cnpy.shape a) 0)))
  /\ (one_dimensional a -> rows_match rows a -> sign_violation name a ->
      field_check rows (name, a) = Fail (SignError name))
  /\ (one_dimensional a -> rows_match rows a -> ~ sign_violation name a ->
      name = timestamp_name ->
      forall pre d post,
        visited a (cnpy.data_int64 a) = pre ++ d :: post ->
        Forall (fun x => valid_ros_timestamp (to_uint64 x) = true) pre ->
        valid_ros_timestamp (to_uint64 d) = false ->
        field_check rows (name, a) = Fail (TimestampRangeError (to_uint64 d)))
  /\ (one_dimensional a -> rows_match rows a -> ~ sign_violation name a ->
      (name = timestamp_name ->
       Forall (fun x => valid_ros_timestamp (to_uint64 x) = true)
              (visited a (cnpy.data_int64 a))) ->
      field_check rows (name, a) = Pass).
Proof.
  intros Hnp. rewrite field_check_eq. unfold one_dimensional, rows_match.
  destruct (String.eqb_spec name points_name) as [| _]; [contradiction |].
  split; [| split; [| split; [| split]]].
  - intros Hd.
    now destruct (Nat.eqb_spec (List.length (cnpy.shape a)) 1).
  - intros Hd Hr. rewrite Hd. cbn [Nat.eqb negb].
    now destruct (Z.eqb_spec (dim (cnpy.shape a) 0) rows).
  - intros Hd Hr Hsv. rewrite Hd, Hr, Z.eqb_refl. cbn [Nat.eqb negb].
    apply sign_error_of_iff in Hsv. now rewrite Hsv.
  - intros Hd Hr Hsv Hts pre d post Hvis Hpre Hbad.
    rewrite Hd, Hr, Z.eqb_refl. cbn [Nat.eqb negb].
    destruct (sign_error_of name a) eqn:Hs;
      [now apply sign_error_of_iff in Hs |].
    rewrite Hts at 1. rewrite String.eqb_refl, Hvis.
    now rewrite (first_unsupported_timestamp_first pre post d Hpre Hbad).
  - intros Hd Hr Hsv Hall.
    rewrite Hd, Hr, Z.eqb_refl. cbn [Nat.eqb negb].
    destruct (sign_error_of name a) eqn:Hs;
      [now apply sign_error_of_iff in Hs |].
    destruct (String.eqb_spec name timestamp_name) as [Hts | _];
      [| reflexivity].
    apply first_unsupported_timestamp_none in Hall; [| exact Hts].
    now rewrite Hall.
Qed.

(** C5, as the claim is written, fails: this dataset passes checks 1 to 3,
    its azimuth field has two dimensions and five rows against the three
    rows of the points array, and the failure reported is the one on the
    number of dimensions, not the one on the number of rows. *)
Lemma verify_npz_structure_reports_dimensions_first :
  passes_points_checks dataset_azimuth_5x2 3
  /\ In ("pcloud_attr.azimuth"%string, azimuth_5x2) dataset_azimuth_5x2
  /\ (1 < List.length (cnpy.shape azimuth_5x2))%nat
  /\ dim (cnpy.shape azimuth_5x2) 0 <> 3
  /\ verify_npz_structure_log dataset_azimuth_5x2
     = Fail (FieldDimensionsError "pcloud_attr.azimuth" 2)
  /\ verify_npz_structure_log dataset_azimuth_5x2
     <> Fail (FieldRowsError "pcloud_attr.azimuth" 3 5).
Proof.
  split; [exact dataset_azimuth_5x2_points_checks |].
  split; [now left |].
  split; [cbn; lia |].
  split; [cbn; lia |].
  split; [reflexivity | vm_compute; discriminate].
Qed.

(** C5, amended. The validator checks (1) that there are exactly 12
    fields, (2) that every schema field is present, (3) that the points
    array has two dimensions, the second of size 3; then it visits the
    fields in key order and on each field other than the points array it
    checks, in this order, (5) that the field has one dimension, (4) that
    its length is the row count of the points array, (6) the sign
    constraint and (7), on the timestamp field, the timestamp range.  It
    returns the failure of the first check violated on the first field
    that violates one.  In a dataset that passes checks 1 to 3, a field
    with more than one dimension makes validation fail; the failure
    reported on that field is the one on its dimensions, never the one on
    its row count. *)
Theorem verify_npz_structure_check_order (m : NpzMap) :
  (List.length m <> 12%nat ->
   verify_npz_structure_log m = Fail (FieldCountError 12 (List.length m)))
  /\ (List.length m = 12%nat ->
      (exists f, In f npz.Fields.get_fields /\ map_find m f = None) ->
      exists f, In f npz.Fields.get_fields /\ map_find m f = None
                /\ verify_npz_structure_log m = Fail (MissingFieldError f))
  /\ (forall points,
         List.length m = 12%nat ->
         (forall f, In f npz.Fields.get_fields -> map_find m f <> None) ->
         map_find m points_name = Some points ->
         (List.length (cnpy.shape points) <> 2%nat ->
          verify_npz_structure_log m
          = Fail (PointsDimensionsError (List.length (cnpy.shape points))))
         /\ (List.length (cnpy.shape points) = 2%nat ->
             dim (cnpy.shape points) 1 <> 3 ->
             verify_npz_structure_log m
             = Fail (PointsColumnsError (dim (cnpy.shape points) 1))))
  /\ (forall rows,
         passes_points_checks m rows ->
         (forall e,
             verify_npz_structure_log m = Fail e <->
             exists l1 p l2,
               m = l1 ++ p :: l2
               /\ Forall (fun q => field_check rows q = Pass) l1
               /\ field_check rows p = Fail e)
         /\ (forall name a e,
                field_check rows (name, a) = Fail e ->
                match e with
                | FieldDimensionsError f n =>
                    f = name /\ ~ one_dimensional a
                | FieldRowsError f _ _ =>
                    f = name /\ one_dimensional a /\ ~ rows_match rows a
                | SignError f =>
                    f = name /\ one_dimensional a /\ rows_match rows a
                    /\ sign_violation name a
                | TimestampRangeError t =>
                    name = timestamp_name /\ one_dimensional a
                    /\ rows_match rows a /\ ~ sign_violation name a
                    /\ valid_ros_timestamp t = false
                | _ => False
                end)
         /\ (forall name a,
                well_ordered m ->
                In (name, a) m -> name <> points_name ->
                ~ one_dimensional a ->
                (exists e, verify_npz_structure_log m = Fail e)
                /\ (forall expected actual,
                       verify_npz_structure_log m
                       <> Fail (FieldRowsError name expected actual))
                /\ (forall l1 l2,
                       m = l1 ++ (name, a) :: l2 ->
                       Forall (fun q => field_check rows q = Pass) l1 ->
                       verify_npz_structure_log m
                       = Fail (FieldDimensionsError
                                 name (List.length (cnpy.shape a)))))
         /\ (forall name a,
                name <> points_name ->
                (~ one_dimensional a ->
                 field_check rows (name, a)
                 = Fail (FieldDimensionsError
                           name (List.length (cnpy.shape a))))
                /\ (one_dimensional a -> ~ rows_match rows a ->
                    field_check rows (name, a)
                    = Fail (FieldRowsError name rows (dim (cnpy.shape a) 0)))
                /\ (one_dimensional a -> rows_match rows a ->
                    sign_violation name a ->
                    field_check rows (name, a) = Fail (SignError name))
                /\ (one_dimensional a -> rows_match rows a ->
                    ~ sign_violation name a -> name = timestamp_name ->
                    forall pre d post,
                      visited a (cnpy.data_int64 a) = pre ++ d :: post ->
                      Forall (fun x => valid_ros_timestamp (to_uint64 x) = true)
                             pre ->
                      valid_ros_timestamp (to_uint64 d) = false ->
                      field_check rows (name, a)
                      = Fail (TimestampRangeError (to_uint64 d)))
                /\ (one_dimensional a -> rows_match rows a ->
                    ~ sign_violation name a ->
                    (name = timestamp_name ->
                     Forall (fun x => valid_ros_timestamp (to_uint64 x) = true)
                            (visited a (cnpy.data_int64 a))) ->
                    field_check rows (name, a) = Pass))
         /\ (forall a, field_check rows (points_name, a) = Pass)
         /\ (forall l1 p l2 e,
                m = l1 ++ p :: l2 ->
                Forall (fun q => field_check rows q = Pass) l1 ->
                field_check rows p = Fail e ->
                verify_npz_structure_log m = Fail e)
         /\ (Forall (fun q => field_check rows q = Pass) m ->
             verify_npz_structure_log m = Pass)).
Proof.
  repeat apply conj.
  - intros Hlen. unfold verify_npz_structure_log.
    destruct (Nat.eqb_spec (List.length m) (List.length npz.Fields.get_fields))
      as [Heq | _]; [now destruct Hlen | reflexivity].
  - intros Hlen (f0 & Hin0 & Hnone0). unfold verify_npz_structure_log.
    rewrite Hlen. cbn [List.length npz.Fields.get_fields Nat.eqb negb].
    destruct (find _ _) as [f |] eqn:Hf.
    + apply find_some in Hf. destruct Hf as (Hin & Hnone).
      exists f. repeat split; [exact Hin | now destruct (map_find m f)].
    + pose proof (find_none _ _ Hf f0 Hin0) as Hfalse. cbv beta in Hfalse.
      now rewrite Hnone0 in Hfalse.
  - intros points Hlen Hpres Hfind. unfold verify_npz_structure_log.
    rewrite Hlen, (missing_field_none m Hpres).
    cbn [List.length npz.Fields.get_fields Nat.eqb negb].
    change (npz.Fields.field npz.Fields.get_fields npz.Fields.POINTS_IDX)
      with points_name.
    rewrite Hfind. split.
    + intros Hd. now destruct (Nat.eqb_spec (List.length (cnpy.shape points)) 2).
    + intros Hd Hc. rewrite Hd. cbn [Nat.eqb negb].
      unfold npz.Fields.COL_SHAPE_IDX.
      now destruct (Z.eqb_spec (dim (cnpy.shape points) 1) 3).
  - intros rows Hpts. rewrite (verify_log_loop m rows Hpts).
    split; [| split; [| split; [| split; [| split; [| split]]]]].
    + intros e. apply for_each_field_fail. apply field_check_no_throw.
    + intros name a e He.
      destruct (field_check_fail rows name a e He) as (_ & Hcase).
      destruct e; try exact Hcase; tauto.
    + intros name a Hord Hin Hnp Hdim.
      assert (Hfc : field_check rows (name, a)
                    = Fail (FieldDimensionsError
                              name (List.length (cnpy.shape a)))).
      { rewrite field_check_eq.
        destruct (String.eqb_spec name points_name) as [| _]; [contradiction |].
        unfold one_dimensional in Hdim.
        now destruct (Nat.eqb_spec (List.length (cnpy.shape a)) 1). }
      repeat apply conj.
      * destruct (for_each_field (field_check rows) m) as [| e |] eqn:Hloop.
        -- apply for_each_field_pass in Hloop. rewrite Forall_forall in Hloop.
           specialize (Hloop _ Hin). congruence.
        -- now exists e.
        -- now apply for_each_field_no_throw in Hloop;
             [| apply field_check_no_throw].
      * intros expected actual Hrow.
        apply for_each_field_fail in Hrow; [| apply field_check_no_throw].
        destruct Hrow as (l1 & [n' a'] & l2 & Hm & _ & Hp).
        destruct (field_check_fail rows n' a' _ Hp)
          as (_ & Hn & _ & _ & Hone & _).
        subst n'.
        assert (Hin' : In (name, a') m) by (rewrite Hm; apply in_elt).
        rewrite (well_ordered_unique m name a a' Hord Hin Hin') in Hdim.
        contradiction.
      * intros l1 l2 Hm Hl1. apply for_each_field_fail;
          [apply field_check_no_throw |].
        now exists l1, (name, a), l2.
    + intros name a Hnp. now apply field_check_violations.
    + reflexivity.
    + intros l1 p l2 e Hm Hl1 Hp. apply for_each_field_fail;
        [apply field_check_no_throw |].
      now exists l1, p, l2.
    + intros Hall. now apply for_each_field_pass.
Qed.

Lemma verify_npz_structure_check_order_witness :
  well_ordered dataset_azimuth_5x2
  /\ passes_points_checks dataset_azimuth_5x2 3
  /\ verify_npz_structure_log dataset_azimuth_5x2
     = Fail (FieldDimensionsError "pcloud_attr.azimuth" 2).
Proof.
  split; [reflexivity |].
  split; [exact dataset_azimuth_5x2_points_checks |].
  refine (proj2 (proj2 (proj1 (proj2 (proj2 (proj2
            (proj2 (proj2 (verify_npz_structure_check_order
                             dataset_azimuth_5x2)))
              3 dataset_azimuth_5x2_points_checks)))
            "pcloud_attr.azimuth"%string azimuth_5x2 _ _ _ _))
          [] (tl dataset_azimuth_5x2) _ _).
  - reflexivity.
  - now left.
  - discriminate.
  - unfold one_dimensional. cbn. lia.
  - reflexivity.
  - constructor.
Defined.

Section SignFacts.

Lemma sign_violation_fails (rows : Z) (name : string) (a : cnpy.NpyArray) :
  sign_violation name a -> one_dimensional a -> rows_match rows a ->
  field_check rows (name, a) = Fail (SignError name).
Proof.
  intros Hsv Hone Hrows. rewrite field_check_eq.
  assert (Hnp : String.eqb name points_name = false).
  { destruct Hsv as [[[-> | [-> | ->]] _] | [[-> | ->] _]]; reflexivity. }
  unfold one_dimensional, rows_match in *.
  rewrite Hnp, Hone, Hrows, Z.eqb_refl. cbn [Nat.eqb negb].
  apply sign_error_of_iff in Hsv. now rewrite Hsv.
Qed.

(** No sign-checked field has a key above the key of the timestamps. *)
Lemma sign_checked_not_after_timestamp (name : string) (a : cnpy.NpyArray) :
  sign_violation name a -> String.ltb timestamp_name name = false.
Proof.
  intros [[[-> | [-> | ->]] _] | [[-> | ->] _]]; reflexivity.
Qed.

Lemma check_field_unread (pts : list Z) (name : string)
  (ints : list Z) (points : list float) (a : cnpy.NpyArray) :
  name = row_name \/ name = col_name ->
  check_field npz.Fields.get_fields points_name pts
              (name, with_data ints points a)
  = check_field npz.Fields.get_fields points_name pts (name, a).
Proof.
  intros [-> | ->]; reflexivity.
Qed.

Lemma for_each_field_unread (pts : list Z) (name : string)
  (ints : list Z) (points : list float) (m : NpzMap) :
  name = row_name \/ name = col_name ->
  for_each_field (check_field npz.Fields.get_fields points_name pts)
                 (map_update m name (with_data ints points))
  = for_each_field (check_field npz.Fields.get_fields points_name pts) m.
Proof.
  intros Hname. induction m as [| [k a] t IH]; cbn; [reflexivity |].
  destruct (String.eqb_spec k name) as [-> | _]; cbn [fst snd].
  - rewrite (check_field_unread pts name ints points a Hname).
    now rewrite <- IH.
  - now rewrite <- IH.
Qed.

Lemma find_missing_update (m : NpzMap) (key : string)
  (f : cnpy.NpyArray -> cnpy.NpyArray) (fields : list string) :
  find (fun g => match map_find (map_update m key f) g with
                 | None => true | _ => false end) fields
  = find (fun g => match map_find m g with
                   | None => true | _ => false end) fields.
Proof.
  induction fields as [| g t IH]; cbn; [reflexivity |].
  rewrite map_find_update, IH. now destruct (map_find m g).
Qed.

Lemma map_update_length (m : NpzMap) (key : string)
  (f : cnpy.NpyArray -> cnpy.NpyArray) :
  List.length (map_update m key f) = List.length m.
Proof. apply length_map. Qed.

End SignFacts.

(** C6. In a dataset that passes the structural checks, validation fails
    with a sign error exactly when the timestamp, rectime or lidar_id
    field holds an element that is negative as an [int64_t], or the depth
    or distance field holds an element that is negative as a
    floating-point number; the error names such a field.  The elements of
    the row and col fields are never read: whatever they are, negative or
    not, the outcome of the validation is the same. *)
Theorem verify_npz_structure_sign_errors :
  (forall (m : NpzMap) (rows : Z),
      well_ordered m ->
      passes_structural_checks m rows ->
      ((exists f, verify_npz_structure_log m = Fail (SignError f)) <->
       (exists name a, In (name, a) m /\ sign_violation name a))
      /\ (forall f,
             verify_npz_structure_log m = Fail (SignError f) ->
             exists a, In (f, a) m /\ sign_violation f a))
  /\ (forall (m : NpzMap) (name : string) (ints : list Z) (points : list float),
         name = row_name \/ name = col_name ->
         verify_npz_structure_log (map_update m name (with_data ints points))
         = verify_npz_structure_log m).
Proof.
  split.
  - intros m rows Hord (Hpts & Hstruct).
    rewrite (verify_log_loop m rows Hpts).
    assert (Hnames : forall f,
               for_each_field (field_check rows) m = Fail (SignError f) ->
               exists a, In (f, a) m /\ sign_violation f a).
    { intros f Hf.
      apply for_each_field_fail in Hf; [| apply field_check_no_throw].
      destruct Hf as (l1 & [n a] & l2 & -> & _ & Hp).
      destruct (field_check_fail rows n a _ Hp) as (_ & <- & _ & _ & Hsv).
      exists a. split; [apply in_elt | exact Hsv]. }
    split; [split |]; [| | exact Hnames].
    + intros (f & Hf). destruct (Hnames f Hf) as (a & Hin & Hsv).
      now exists f, a.
    + intros (name & a & Hin & Hsv).
      assert (Hnp : name <> points_name).
      { destruct Hsv as [[[-> | [-> | ->]] _] | [[-> | ->] _]]; discriminate. }
      destruct (Hstruct name a Hin Hnp) as (Hone & Hrows).
      pose proof (sign_violation_fails rows name a Hsv Hone Hrows) as Hfail.
      destruct (for_each_field (field_check rows) m) as [| e |] eqn:Hloop.
      * apply for_each_field_pass in Hloop. rewrite Forall_forall in Hloop.
        specialize (Hloop _ Hin). congruence.
      * apply for_each_field_fail in Hloop; [| apply field_check_no_throw].
        destruct Hloop as (l1 & [n' a'] & l2 & Hm & Hl1 & Hp).
        assert (Hin' : In (n', a') m) by (rewrite Hm; apply in_elt).
        destruct (field_check_fail rows n' a' e Hp) as (Hnp' & Hcase).
        destruct (Hstruct n' a' Hin' Hnp') as (Hone' & Hrows').
        destruct e as [| | | | f n | f x y | f | t]; try contradiction.
        -- now destruct Hcase as (_ & _ & Hbad).
        -- now destruct Hcase as (_ & _ & _ & _ & Hbad).
        -- now exists f.
        -- exfalso. destruct Hcase as (Hts & _ & _ & Hnsv & _).
           rewrite Hm in Hin, Hord.
           apply in_app_or in Hin. destruct Hin as [Hin | [Heq | Hin]].
           ++ rewrite Forall_forall in Hl1. specialize (Hl1 _ Hin). congruence.
           ++ injection Heq as -> ->. contradiction.
           ++ pose proof (well_ordered_after l1 l2 _ _ Hord Hin) as Hlt.
              cbn [fst] in Hlt. rewrite Hts in Hlt.
              rewrite (sign_checked_not_after_timestamp name a Hsv) in Hlt.
              discriminate.
      * now apply for_each_field_no_throw in Hloop;
          [| apply field_check_no_throw].
  - intros m name ints points Hname. unfold verify_npz_structure_log.
    rewrite map_update_length, find_missing_update, map_find_update.
    change (npz.Fields.field npz.Fields.get_fields npz.Fields.POINTS_IDX)
      with points_name.
    assert (Hne : String.eqb points_name name = false)
      by (destruct Hname as [-> | ->]; reflexivity).
    rewrite Hne.
    destruct (negb (Nat.eqb _ _)); [reflexivity |].
    destruct (find _ _); [reflexivity |].
    destruct (map_find m points_name) as [pts |]; [| reflexivity].
    destruct (negb (Nat.eqb _ 2)); [reflexivity |].
    destruct (negb (_ =? 3)); [reflexivity |].
    now apply for_each_field_unread.
Qed.

Section StoreFacts.

Context {T : Type}.

Lemma firstn_store (l : list T) (n i : nat) (v : T) :
  (i < n)%nat -> firstn n (store l i v) = store (firstn n l) i v.
Proof.
  revert n i. induction l as [| h t IH]; intros [| n] [| i] Hi; cbn;
    try reflexivity; try lia.
  f_equal. apply IH. lia.
Qed.

Lemma forallb_store (p : T -> bool) (l : list T) (i : nat) (v : T) :
  forallb p l = true -> p v = true -> forallb p (store l i v) = true.
Proof.
  revert i. induction l as [| h t IH]; intros [| i] Hl Hv; cbn in *;
    try reflexivity; apply andb_true_iff in Hl; destruct Hl as (Hh & Ht);
    apply andb_true_iff; split; auto.
Qed.

End StoreFacts.

Section TimestampFieldFacts.

Lemma first_unsupported_timestamp_store (data : list Z) (i : nat) (v : Z) :
  first_unsupported_timestamp data = None ->
  (i < List.length data)%nat ->
  valid_ros_timestamp (to_uint64 v) = false ->
  first_unsupported_timestamp (store data i v) = Some (to_uint64 v).
Proof.
  revert i. induction data as [| d rest IH]; intros [| i] Hnone Hi Hv;
    cbn in *; try lia.
  - now rewrite Hv.
  - destruct (valid_ros_timestamp (to_uint64 d)); cbn in *;
      [| discriminate].
    apply IH; [exact Hnone | lia | exact Hv].
Qed.

Lemma field_check_timestamp_pass (rows : Z) (a : cnpy.NpyArray) :
  field_check rows (timestamp_name, a) = Pass <->
  one_dimensional a /\ rows_match rows a
  /\ all_non_negative_int64 a = true
  /\ first_unsupported_timestamp (visited a (cnpy.data_int64 a)) = None.
Proof.
  rewrite field_check_eq. unfold one_dimensional, rows_match, sign_error_of.
  change (String.eqb timestamp_name points_name) with false.
  change (String.eqb timestamp_name timestamp_name) with true.
  change (int64_checked timestamp_name) with true.
  change (Point_checked timestamp_name) with false.
  cbn [andb orb]. rewrite orb_false_r.
  destruct (Nat.eqb_spec (List.length (cnpy.shape a)) 1) as [Hd | Hd];
    cbn [negb]; [| split; [discriminate | tauto]].
  destruct (Z.eqb_spec (dim (cnpy.shape a) 0) rows) as [Hr | Hr];
    cbn [negb]; [| split; [discriminate | tauto]].
  destruct (all_non_negative_int64 a); cbn [negb];
    [| split; [discriminate | intros (_ & _ & H & _); discriminate]].
  destruct (first_unsupported_timestamp _);
    [split; [discriminate | intros (_ & _ & _ & H); discriminate] | tauto].
Qed.

Lemma uint64_of_large (v : Z) :
  4294967296000000 <= v < 2 ^ 63 ->
  to_uint64 v = v /\ valid_ros_timestamp v = false /\ (v <? 0) = false.
Proof.
  intros Hv. assert (Hu : is_uint64 v) by (unfold is_uint64; lia).
  repeat split.
  - unfold to_uint64. apply Z.mod_small. unfold is_uint64 in Hu. lia.
  - apply valid_ros_timestamp_late. lia.
  - apply Z.ltb_ge. lia.
Qed.

(** The timestamp field after one of its elements is set too large. *)
Lemma field_check_timestamp_store (rows : Z) (a : cnpy.NpyArray)
  (i : nat) (v : Z) :
  field_check rows (timestamp_name, a) = Pass ->
  (i < List.length (visited a (cnpy.data_int64 a)))%nat ->
  4294967296000000 <= v < 2 ^ 63 ->
  field_check rows (timestamp_name, store_int64 i v a)
  = Fail (TimestampRangeError v).
Proof.
  intros Hpass Hi Hv.
  apply field_check_timestamp_pass in Hpass.
  destruct Hpass as (Hone & Hrows & Hnn & Hnone).
  destruct (uint64_of_large v Hv) as (Hcast & Hinv & Hpos).
  assert (Hvis : visited (store_int64 i v a)
                         (cnpy.data_int64 (store_int64 i v a))
                 = store (visited a (cnpy.data_int64 a)) i v).
  { unfold visited in *. cbn [store_int64 cnpy.shape cnpy.data_int64].
    apply firstn_store. rewrite length_firstn in Hi. lia. }
  rewrite field_check_eq. unfold one_dimensional, rows_match in *.
  unfold sign_error_of, all_non_negative_int64.
  rewrite Hvis. cbn [store_int64 cnpy.shape].
  change (String.eqb timestamp_name points_name) with false.
  change (String.eqb timestamp_name timestamp_name) with true.
  change (int64_checked timestamp_name) with true.
  change (Point_checked timestamp_name) with false.
  rewrite Hone, Hrows, Z.eqb_refl. cbn [Nat.eqb negb andb orb].
  rewrite forallb_store; [| exact Hnn | now rewrite Hpos].
  cbn [negb orb].
  rewrite (first_unsupported_timestamp_store _ i v Hnone Hi);
    [now rewrite Hcast | now rewrite Hcast].
Qed.

Lemma for_each_field_timestamp_store (rows : Z) (i : nat) (v : Z)
  (m : NpzMap) (a : cnpy.NpyArray) :
  for_each_field (field_check rows) m = Pass ->
  map_find m timestamp_name = Some a ->
  (i < List.length (visited a (cnpy.data_int64 a)))%nat ->
  4294967296000000 <= v < 2 ^ 63 ->
  for_each_field (field_check rows)
                 (map_update m timestamp_name (store_int64 i v))
  = Fail (TimestampRangeError v).
Proof.
  intros Hpass Hfind Hi Hv.
  induction m as [| [k c] t IH]; cbn in *; [discriminate |].
  destruct (field_check rows (k, c)) eqn:Hkc; try discriminate.
  destruct (String.eqb_spec k timestamp_name) as [-> | Hne]; cbn [fst snd].
  - injection Hfind as ->.
    now rewrite (field_check_timestamp_store rows a i v Hkc Hi Hv).
  - rewrite Hkc. now apply IH.
Qed.

Lemma passes_points_checks_store (m : NpzMap) (rows : Z) (i : nat) (v : Z) :
  passes_points_checks m rows ->
  passes_points_checks (map_update m timestamp_name (store_int64 i v)) rows.
Proof.
  intros (Hlen & Hpres & points & Hfind & Hshape).
  split; [now rewrite map_update_length | split].
  - intros f Hf. rewrite map_find_update.
    specialize (Hpres f Hf). now destruct (map_find m f).
  - exists points. rewrite map_find_update, Hfind.
    change (String.eqb points_name timestamp_name) with false.
    now split.
Qed.

End TimestampFieldFacts.

(** C7. The validator succeeds only if every element of the timestamp
    field, which the sign check has found non-negative, is a valid ROS
    timestamp.  In a dataset that validates, setting one element of the
    timestamp field to 4_294_967_296_000_000 or to a larger [int64_t]
    makes validation fail, and the failure reported is the timestamp range
    error for that value. *)
Theorem verify_npz_structure_timestamp_range :
  (forall (m : NpzMap) (a : cnpy.NpyArray),
      verify_npz_structure m = true ->
      map_find m timestamp_name = Some a ->
      Forall (fun d => 0 <= d
                       /\ valid_ros_timestamp (to_uint64 d) = true
                       /\ (is_int64 d -> valid_ros_timestamp d = true))
             (visited a (cnpy.data_int64 a)))
  /\ (forall (m : NpzMap) (a : cnpy.NpyArray) (i : nat) (v : Z),
         verify_npz_structure m = true ->
         map_find m timestamp_name = Some a ->
         (i < List.length (visited a (cnpy.data_int64 a)))%nat ->
         4294967296000000 <= v < 2 ^ 63 ->
         verify_npz_structure_log
           (map_update m timestamp_name (store_int64 i v))
         = Fail (TimestampRangeError v)
         /\ verify_npz_structure
              (map_update m timestamp_name (store_int64 i v)) = false).
Proof.
  assert (Hinv : forall m, verify_npz_structure m = true ->
                   exists rows, passes_points_checks m rows
                     /\ for_each_field (field_check rows) m = Pass).
  { intros m Hok. unfold verify_npz_structure in Hok.
    destruct (verify_npz_structure_log m) eqn:Hlog; try discriminate.
    exact (verify_log_points_inv m Pass Hlog). }
  split.
  - intros m a Hok Hfind.
    destruct (Hinv m Hok) as (rows & _ & Hloop).
    apply for_each_field_pass in Hloop. rewrite Forall_forall in Hloop.
    specialize (Hloop _ (map_find_In m _ a Hfind)).
    apply field_check_timestamp_pass in Hloop.
    destruct Hloop as (_ & _ & Hnn & Hnone).
    apply first_unsupported_timestamp_none in Hnone.
    unfold all_non_negative_int64 in Hnn.
    rewrite forallb_forall in Hnn. rewrite Forall_forall in Hnone.
    apply Forall_forall. intros d Hd.
    specialize (Hnn d Hd). specialize (Hnone d Hd).
    apply negb_true_iff, Z.ltb_ge in Hnn.
    repeat split; [exact Hnn | exact Hnone |].
    intros Hrange. unfold to_uint64, is_int64 in *.
    now rewrite Z.mod_small in Hnone by lia.
  - intros m a i v Hok Hfind Hi Hv.
    destruct (Hinv m Hok) as (rows & Hpts & Hloop).
    assert (Hlog : verify_npz_structure_log
                     (map_update m timestamp_name (store_int64 i v))
                   = Fail (TimestampRangeError v)).
    { rewrite (verify_log_loop _ rows (passes_points_checks_store m rows i v Hpts)).
      now apply for_each_field_timestamp_store with (a := a). }
    split; [exact Hlog |].
    unfold verify_npz_structure. now rewrite Hlog.
Qed.

Lemma dataset_negative_depth_structure :
  passes_structural_checks dataset_negative_depth 3.
Proof.
  split.
  - split; [reflexivity | split].
    + intros f Hf. cbn in Hf. in_cases Hf; discriminate.
    + eexists. split; reflexivity.
  - intros name a Hin Hnp. cbn in Hin.
    in_cases Hin; injection Hin as <- <-;
      try (now destruct Hnp); split; reflexivity.
Qed.

Lemma verify_npz_structure_sign_errors_witness :
  well_ordered dataset_negative_depth
  /\ passes_structural_checks dataset_negative_depth 3
  /\ (exists f, verify_npz_structure_log dataset_negative_depth
                = Fail (SignError f))
  /\ verify_npz_structure_log dataset_negative_row_col
     = verify_npz_structure_log
         (map_update sample_dataset row_name
            (with_data [-1; -1; -1] [-600.5; -3.75; -1100]%float)).
Proof.
  split; [reflexivity |].
  split; [exact dataset_negative_depth_structure |].
  split.
  - refine (proj2 (proj1 (proj1 verify_npz_structure_sign_errors
                            dataset_negative_depth 3 _ _)) _).
    + reflexivity.
    + exact dataset_negative_depth_structure.
    + exists depth_name,
        (with_data [0; 0; 0] [10.5; -22.75; 3.125]%float
                   (attribute [0; 0; 0] [10.5; 22.75; 3.125]%float)).
      split.
      * do 3 right. left. reflexivity.
      * right. split; [now left |].
        exists (-22.75)%float.
        split; [right; left; reflexivity | reflexivity].
  - refine (proj2 verify_npz_structure_sign_errors _ col_name _ _ _).
    now right.
Defined.

Lemma verify_npz_structure_timestamp_range_witness :
  verify_npz_structure sample_dataset = true
  /\ map_find sample_dataset timestamp_name = Some sample_timestamps
  /\ verify_npz_structure_log
       (map_update sample_dataset timestamp_name
                   (store_int64 1 4294967296000000))
     = Fail (TimestampRangeError 4294967296000000).
Proof.
  split; [reflexivity |].
  split; [reflexivity |].
  refine (proj1 (proj2 verify_npz_structure_timestamp_range
                   sample_dataset sample_timestamps 1%nat 4294967296000000
                   _ _ _ _)).
  - reflexivity.
  - reflexivity.
  - apply Nat.ltb_lt. reflexivity.
  - lia.
Defined.

(* ================================================================== *)
(** * Part III: the rest of the library                                *)
(* ================================================================== *)

(** ** Strings *)

Section StringFacts.

Local Open Scope string_scope.

Lemma append_assoc (a b c : string) : (a ++ b) ++ c = a ++ (b ++ c).
Proof. induction a as [| x a IH]; cbn; [reflexivity | now rewrite IH]. Qed.

Lemma append_length (a b : string) :
  String.length (a ++ b) = (String.length a + String.length b)%nat.
Proof. induction a as [| x a IH]; cbn; [reflexivity | now rewrite IH]. Qed.

Lemma append_empty_r (a : string) : a ++ "" = a.
Proof. induction a as [| x a IH]; cbn; [reflexivity | now rewrite IH]. Qed.

Lemma prefix_iff (p s : string) :
  String.prefix p s = true <-> exists post, s = p ++ post.
Proof.
  revert s. induction p as [| a p IH]; intros s.
  - destruct s; cbn; split; eauto.
  - destruct s as [| b s]; cbn.
    + split; [discriminate | intros (post & Hpost); discriminate].
    + destruct (ascii_dec a b) as [-> | Hne].
      * rewrite IH. split; intros (post & Hpost); exists post.
        -- now rewrite Hpost.
        -- now injection Hpost.
      * split; [discriminate |].
        intros (post & Hpost). injection Hpost as Hb _. now destruct Hne.
Qed.

Lemma take_append (pre rest : string) :
  std_string.take (String.length pre) (pre ++ rest) = pre.
Proof. induction pre as [| x pre IH]; cbn; [now destruct rest | now rewrite IH]. Qed.

Lemma drop_append (pre rest : string) :
  std_string.drop (String.length pre) (pre ++ rest) = rest.
Proof. induction pre as [| x pre IH]; cbn; [now destruct rest | exact IH]. Qed.

(** A position returned by [find] splits the string around the pattern. *)
Lemma find_Some (s str : string) (p : nat) :
  std_string.find s str = Some p ->
  exists pre post, s = pre ++ str ++ post /\ String.length pre = p.
Proof.
  revert p. induction s as [| c s IH]; intros p; cbn [std_string.find].
  - destruct (String.prefix str "") eqn:Hp; [| discriminate].
    intros [= <-]. apply prefix_iff in Hp. destruct Hp as (post & Hpost).
    now exists "", post.
  - destruct (String.prefix str (String c s)) eqn:Hp.
    + intros [= <-]. apply prefix_iff in Hp. destruct Hp as (post & Hpost).
      now exists "", post.
    + destruct (std_string.find s str) as [q |] eqn:Hq; [| discriminate].
      cbn. intros [= <-].
      destruct (IH q eq_refl) as (pre & post & -> & Hlen).
      exists (String c pre), post. cbn. now rewrite Hlen.
Qed.

(** [find] returns the first position: no occurrence starts before it. *)
Lemma find_least (s str pre post : string) :
  s = pre ++ str ++ post ->
  exists p, std_string.find s str = Some p /\ (p <= String.length pre)%nat.
Proof.
  revert s. induction pre as [| c pre IH]; intros s ->; cbn [append].
  - exists O. split; [| cbn; lia].
    assert (Hp : String.prefix str (str ++ post) = true)
      by (apply prefix_iff; now exists post).
    destruct (str ++ post); cbn [std_string.find]; now rewrite Hp.
  - cbn [std_string.find].
    destruct (String.prefix str (String c (pre ++ str ++ post))).
    + exists O. split; [reflexivity | cbn; lia].
    + destruct (IH _ eq_refl) as (p & -> & Hle).
      exists (S p). split; [reflexivity | cbn; lia].
Qed.

Lemma find_occurs (s str : string) :
  std_string.find s str <> None <-> std_string.occurs str s.
Proof.
  unfold std_string.occurs. split.
  - destruct (std_string.find s str) as [p |] eqn:Hp; [| congruence].
    intros _. destruct (find_Some s str p Hp) as (pre & post & Heq & _).
    now exists pre, post.
  - intros (pre & post & Heq).
    destruct (find_least s str pre post Heq) as (p & -> & _). discriminate.
Qed.

End StringFacts.

(** ** Frame names *)

Section NamingFacts.

Local Open Scope string_scope.

Lemma occurs_tail (str s : string) (c : ascii) :
  std_string.occurs str s -> std_string.occurs str (String c s).
Proof.
  intros (pre & post & ->). now exists (String c pre), post.
Qed.

Lemma drop_add (a b : nat) (s : string) :
  std_string.drop (a + b) s = std_string.drop b (std_string.drop a s).
Proof.
  revert s. induction a as [| a IH]; intros s; cbn; [reflexivity |].
  destruct s as [| c s]; [now destruct b | apply IH].
Qed.

Lemma filter_singleton {T : Type} (p : T -> bool) (l : list T) (x : T) :
  filter p l = [x] ->
  (forall d, nth (find_if_index p l) l d = x)
  /\ p x = true
  /\ In x l
  /\ forall y, In y l -> p y = true -> y = x.
Proof.
  intros Hf.
  assert (Hx : In x (filter p l)) by (rewrite Hf; now left).
  apply filter_In in Hx. destruct Hx as (Hin & Hpx).
  repeat split; try assumption.
  - intros d. clear Hin.
    induction l as [| h t IH]; cbn in *; [discriminate |].
    destruct (p h); [now injection Hf | now apply IH].
  - intros y Hy Hpy.
    assert (Hyf : In y (filter p l)) by (apply filter_In; now split).
    rewrite Hf in Hyf. destruct Hyf as [-> | []]. reflexivity.
Qed.

Lemma count_if_one {T : Type} (p : T -> bool) (l : list T) :
  count_if p l = 1%nat -> exists x, filter p l = [x].
Proof.
  unfold count_if. destruct (filter p l) as [| x [| y t]]; try discriminate.
  intros _. now exists x.
Qed.

Lemma filename_has_frame_iff (filename frame : string) :
  match std_string.find filename frame with
  | Some _ => true
  | None => false
  end = true <-> std_string.occurs frame filename.
Proof.
  rewrite <- find_occurs.
  destruct (std_string.find filename frame); split;
    congruence || discriminate.
Qed.

End NamingFacts.

(** X1. When neither sensor type contains an underscore, as is the case
    of "cameras" and "lidars", [tf_frame_name] is injective: two frame
    names are equal only for the same type and the same frame.  The name
    is one character longer than its two parts together. *)
Theorem tf_frame_name_injective (type1 frame1 type2 frame2 : string) :
  ~ std_string.occurs "_" type1 ->
  ~ std_string.occurs "_" type2 ->
  (tf_frame_name type1 frame1 = tf_frame_name type2 frame2 ->
   type1 = type2 /\ frame1 = frame2)
  /\ String.length (tf_frame_name type1 frame1)
     = S (String.length type1 + String.length frame1).
Proof.
  unfold tf_frame_name. intros H1 H2. split.
  - revert type2 H2. induction type1 as [| c t1 IH]; intros [| d t2] H2 Heq;
      cbn in Heq.
    + now injection Heq.
    + injection Heq as <- _. destruct H2. now exists ""%string, t2.
    + injection Heq as -> _. destruct H1. now exists ""%string, t1.
    + injection Heq as -> Heq.
      destruct (IH (fun H => H1 (occurs_tail _ _ d H)) t2
                   (fun H => H2 (occurs_tail _ _ d H)) Heq) as (-> & ->).
      now split.
  - rewrite append_length. cbn. lia.
Qed.

Lemma tf_frame_name_injective_witness :
  ~ std_string.occurs "_" "cameras"
  /\ ~ std_string.occurs "_" "lidars"
  /\ String.length (tf_frame_name "cameras" "front_left") = 18%nat.
Proof.
  assert (Hc : ~ std_string.occurs "_" "cameras")
    by (intros H%find_occurs; apply H; reflexivity).
  assert (Hl : ~ std_string.occurs "_" "lidars")
    by (intros H%find_occurs; apply H; reflexivity).
  split; [exact Hc | split; [exact Hl |]].
  exact (proj2 (tf_frame_name_injective "cameras" "front_left"
                                        "lidars" "front_left" Hc Hl)).
Defined.

(** X2. [camera_name_from_lidar_name] returns the empty string exactly
    when "lidar" does not occur in the name: [find] gives [npos],
    [replace] throws and the exception is caught.  Otherwise it replaces
    the first occurrence of "lidar" by "camera" and leaves the rest of the
    name as it is, so the result is one character longer. *)
Theorem camera_name_from_lidar_name_spec (basename : string) :
  (camera_name_from_lidar_name basename = ""%string <->
   ~ std_string.occurs "lidar" basename)
  /\ (forall pre post : string,
         basename = (pre ++ "lidar" ++ post)%string ->
         exists pre' post',
           basename = (pre' ++ "lidar" ++ post')%string
           /\ (String.length pre' <= String.length pre)%nat
           /\ camera_name_from_lidar_name basename
              = (pre' ++ "camera" ++ post')%string
           /\ String.length (camera_name_from_lidar_name basename)
              = S (String.length basename)).
Proof.
  assert (Hfound : forall p, std_string.find basename "lidar" = Some p ->
            exists pre' post',
              basename = (pre' ++ "lidar" ++ post')%string
              /\ String.length pre' = p
              /\ camera_name_from_lidar_name basename
                 = (pre' ++ "camera" ++ post')%string).
  { intros p Hp. destruct (find_Some _ _ _ Hp) as (pre' & post' & Heq & Hlen).
    exists pre', post'. repeat split; try assumption.
    unfold camera_name_from_lidar_name, std_string.replace. rewrite Hp.
    assert (Hsize : (String.length basename <? p)%nat = false).
    { apply Nat.ltb_ge. rewrite Heq, append_length. lia. }
    rewrite Hsize, <- Hlen, Heq.
    rewrite take_append, drop_add, drop_append.
    change (String.length "lidar") with (String.length "lidar"%string).
    now rewrite (drop_append "lidar" post'). }
  split.
  - rewrite <- find_occurs. split.
    + intros Hempty Hsome.
      destruct (std_string.find basename "lidar") as [p |] eqn:Hp;
        [| congruence].
      destruct (Hfound p eq_refl) as (pre' & post' & _ & _ & Hres).
      rewrite Hres in Hempty. destruct pre'; discriminate.
    + intros Hnone.
      unfold camera_name_from_lidar_name, std_string.replace.
      destruct (std_string.find basename "lidar"); [| reflexivity].
      now destruct Hnone.
  - intros pre post Heq.
    destruct (find_least _ _ _ _ Heq) as (p & Hp & Hle).
    destruct (Hfound p Hp) as (pre' & post' & Heq' & Hlen & Hres).
    exists pre', post'. repeat split; try assumption; [lia |].
    rewrite Hres, Heq', !append_length. cbn. lia.
Qed.

Lemma camera_name_from_lidar_name_spec_witness :
  camera_name_from_lidar_name "20190401_frontcenter.npz" = ""%string.
Proof.
  refine (proj2 (proj1 (camera_name_from_lidar_name_spec
                          "20190401_frontcenter.npz")) _).
  intros H%find_occurs. apply H. reflexivity.
Defined.

Section FrameTableFacts.

Local Open Scope string_scope.

Lemma get_files_not_empty (f : string) :
  In f sensors.Frames.get_files -> f <> "".
Proof. intros Hf. cbn in Hf. in_cases Hf; discriminate. Qed.

Lemma camera_name_of_file (f : string) :
  In f sensors.Frames.get_files ->
  In (get_camera_name_from_frame_name f) sensors.Frames.get_sensors
  /\ without_underscores (get_camera_name_from_frame_name f) = f.
Proof.
  intros Hf. cbn in Hf. in_cases Hf; split; vm_compute; tauto.
Qed.

Lemma camera_name_unknown (name : string) :
  ~ In name sensors.Frames.get_files ->
  get_camera_name_from_frame_name name = "".
Proof.
  intros Hnot. unfold get_camera_name_from_frame_name.
  cbn [List.length sensors.Frames.get_files camera_name_loop nth].
  repeat match goal with
    | |- context [String.eqb name ?f] =>
        destruct (String.eqb_spec name f) as [-> | _];
        [exfalso; apply Hnot; cbn; tauto |]
    end.
  reflexivity.
Qed.

End FrameTableFacts.

(** The result of [frame_from_filename] by the number of tokens that
    occur in the file name. *)
Lemma frame_from_filename_cases (filename : string) :
  (frame_from_filename filename = ""%string
   \/ In (frame_from_filename filename) sensors.Frames.get_files)
  /\ (forall f,
         In f sensors.Frames.get_files ->
         (frame_from_filename filename = f <->
          std_string.occurs f filename
          /\ forall g, In g sensors.Frames.get_files ->
                       std_string.occurs g filename -> g = f))
  /\ (forall f g,
         In f sensors.Frames.get_files -> In g sensors.Frames.get_files ->
         f <> g ->
         std_string.occurs f filename -> std_string.occurs g filename ->
         frame_from_filename filename = ""%string)
  /\ ((forall f, In f sensors.Frames.get_files ->
                 ~ std_string.occurs f filename) ->
      frame_from_filename filename = ""%string).
Proof.
  set (has := fun frame : string =>
         match std_string.find filename frame with
         | Some _ => true
         | None => false
         end).
  assert (Hhas : forall f, has f = true <-> std_string.occurs f filename)
    by (intros f; apply filename_has_frame_iff).
  assert (Hunfold : frame_from_filename filename
                    = if negb (Nat.eqb (count_if has sensors.Frames.get_files) 1)
                      then ""%string
                      else nth (find_if_index has sensors.Frames.get_files)
                               sensors.Frames.get_files ""%string)
    by reflexivity.
  assert (Hone : forall x, filter has sensors.Frames.get_files = [x] ->
                   frame_from_filename filename = x).
  { intros x Hx. rewrite Hunfold. unfold count_if. rewrite Hx.
    cbn [List.length Nat.eqb negb].
    destruct (filter_singleton has _ x Hx) as (Hnth & _). apply Hnth. }
  assert (Hnot_one : count_if has sensors.Frames.get_files <> 1%nat ->
                     frame_from_filename filename = ""%string).
  { intros Hc. rewrite Hunfold.
    now destruct (Nat.eqb_spec (count_if has sensors.Frames.get_files) 1). }
  assert (Hcases : (count_if has sensors.Frames.get_files <> 1%nat
                    /\ frame_from_filename filename = ""%string)
                   \/ exists x, filter has sensors.Frames.get_files = [x]
                                /\ frame_from_filename filename = x).
  { destruct (Nat.eq_dec (count_if has sensors.Frames.get_files) 1) as [H1 | H1].
    - right. destruct (count_if_one _ _ H1) as (x & Hx). exists x. auto.
    - left. auto. }
  repeat apply conj.
  - destruct Hcases as [(_ & ->) | (x & Hx & ->)]; [now left | right].
    now destruct (filter_singleton has _ x Hx) as (_ & _ & Hin & _).
  - intros f Hf. split.
    + intros Hres.
      destruct Hcases as [(_ & Hempty) | (x & Hx & Hrx)].
      * rewrite Hempty in Hres. now destruct (get_files_not_empty f Hf).
      * rewrite Hres in Hrx. subst x.
        destruct (filter_singleton has _ f Hx) as (_ & Hpf & _ & Huniq).
        split; [now apply Hhas |].
        intros g Hg Hog. apply Huniq; [exact Hg | now apply Hhas].
    + intros (Hocc & Huniq).
      assert (Hff : In f (filter has sensors.Frames.get_files))
        by (apply filter_In; split; [exact Hf | now apply Hhas]).
      destruct Hcases as [(Hc & _) | (x & Hx & ->)].
      * exfalso. apply Hc. unfold count_if.
        assert (Hall : forall y, In y (filter has sensors.Frames.get_files) ->
                                 y = f).
        { intros y Hy%filter_In. destruct Hy as (Hy & Hpy).
          apply Huniq; [exact Hy | now apply Hhas]. }
        assert (Hnd : NoDup (filter has sensors.Frames.get_files)).
        { apply NoDup_filter. cbn.
          repeat constructor; cbn; intuition discriminate. }
        destruct (filter has sensors.Frames.get_files) as [| a [| b t]];
          [contradiction | reflexivity |].
        exfalso. inversion Hnd as [| ? ? Hnotin _]; subst.
        apply Hnotin. left.
        rewrite (Hall a (or_introl eq_refl)).
        now rewrite (Hall b (or_intror (or_introl eq_refl))).
      * rewrite Hx in Hff. destruct Hff as [-> | []]. reflexivity.
  - intros f g Hf Hg Hne Hof Hog.
    destruct Hcases as [(_ & ->) | (x & Hx & _)]; [reflexivity |].
    destruct (filter_singleton has _ x Hx) as (_ & _ & _ & Huniq).
    destruct Hne.
    rewrite (Huniq f Hf (proj2 (Hhas f) Hof)).
    now rewrite (Huniq g Hg (proj2 (Hhas g) Hog)).
  - intros Hnone. apply Hnot_one. unfold count_if.
    assert (Hnil : filter has sensors.Frames.get_files = []).
    { destruct (filter has sensors.Frames.get_files) as [| a t] eqn:Hfl;
        [reflexivity |].
      assert (Ha : In a (filter has sensors.Frames.get_files))
        by (rewrite Hfl; now left).
      apply filter_In in Ha. destruct Ha as (Ha & Hpa).
      now destruct (Hnone a Ha (proj1 (Hhas a) Hpa)). }
    rewrite Hnil. discriminate.
Qed.

(** X3. [frame_from_filename] returns either the empty string or one of
    the eight file tokens.  It returns a token exactly when that token
    occurs in the file name and no other token does; when two different
    tokens occur, or none, it returns the empty string. *)
Theorem frame_from_filename_spec (filename : string) :
  (frame_from_filename filename = ""%string
   \/ In (frame_from_filename filename) sensors.Frames.get_files)
  /\ (forall f,
         In f sensors.Frames.get_files ->
         (frame_from_filename filename = f <->
          std_string.occurs f filename
          /\ forall g, In g sensors.Frames.get_files ->
                       std_string.occurs g filename -> g = f))
  /\ (forall f g,
         In f sensors.Frames.get_files -> In g sensors.Frames.get_files ->
         f <> g ->
         std_string.occurs f filename -> std_string.occurs g filename ->
         frame_from_filename filename = ""%string)
  /\ ((forall f, In f sensors.Frames.get_files ->
                 ~ std_string.occurs f filename) ->
      frame_from_filename filename = ""%string).
Proof.
  destruct (frame_from_filename_cases filename)
    as (Hmember & Hexact & Htwo & Hnone).
  split; [exact Hmember | split; [exact Hexact | split]].
  - intros f g Hf Hg Hne Hof Hog. now apply (Htwo f g).
  - exact Hnone.
Qed.

Lemma frame_from_filename_spec_witness :
  std_string.occurs
    "frontcenter" "20190401121727_lidar_frontcenter_000000080.npz".
Proof.
  refine (proj1 (proj1 (proj1 (proj2 (frame_from_filename_spec
            "20190401121727_lidar_frontcenter_000000080.npz"))
            "frontcenter"%string _) _)).
  - now left.
  - reflexivity.
Defined.

(** X4. [get_camera_name_from_frame_name] maps the file token at each
    position of [get_files] to the sensor name at the same position of
    [get_sensors] and every other string to the empty string.  On the
    file tokens it is injective, and the sensor name it returns is the
    token with underscores inserted: without them it is the token again. *)
Theorem get_camera_name_from_frame_name_spec :
  (forall i, (i < 8)%nat ->
     get_camera_name_from_frame_name
       (nth i sensors.Frames.get_files EmptyString)
     = nth i sensors.Frames.get_sensors EmptyString)
  /\ (forall name,
         ~ In name sensors.Frames.get_files ->
         get_camera_name_from_frame_name name = EmptyString)
  /\ (forall name,
         In name sensors.Frames.get_files ->
         In (get_camera_name_from_frame_name name) sensors.Frames.get_sensors
         /\ without_underscores (get_camera_name_from_frame_name name) = name)
  /\ (forall name1 name2,
         In name1 sensors.Frames.get_files ->
         In name2 sensors.Frames.get_files ->
         get_camera_name_from_frame_name name1
         = get_camera_name_from_frame_name name2 ->
         name1 = name2).
Proof.
  repeat apply conj.
  - intros i Hi.
    do 8 (destruct i as [| i]; [reflexivity |]). lia.
  - apply camera_name_unknown.
  - apply camera_name_of_file.
  - intros name1 name2 H1 H2 Heq.
    rewrite <- (proj2 (camera_name_of_file name1 H1)).
    rewrite <- (proj2 (camera_name_of_file name2 H2)).
    now rewrite Heq.
Qed.

Lemma get_camera_name_from_frame_name_spec_witness :
  get_camera_name_from_frame_name "rearleft" = "rear_left"%string
  /\ get_camera_name_from_frame_name "rear_left" = EmptyString.
Proof.
  split.
  - refine (proj1 get_camera_name_from_frame_name_spec 6%nat _). lia.
  - refine (proj1 (proj2 get_camera_name_from_frame_name_spec) _ _).
    cbn. intuition discriminate.
Defined.

(** X5. A frame that [frame_from_filename] finds in a file name always
    has a camera name: when the result is not empty,
    [get_camera_name_from_frame_name] maps it to one of the eight sensor
    names, and that name without its underscores occurs in the file
    name. *)
Theorem frame_from_filename_has_camera_name (filename : string) :
  frame_from_filename filename <> EmptyString ->
  In (get_camera_name_from_frame_name (frame_from_filename filename))
     sensors.Frames.get_sensors
  /\ get_camera_name_from_frame_name (frame_from_filename filename)
     <> EmptyString
  /\ std_string.occurs
       (without_underscores
          (get_camera_name_from_frame_name (frame_from_filename filename)))
       filename.
Proof.
  intros Hne.
  destruct (frame_from_filename_cases filename) as (Hin & Hiff & _).
  destruct Hin as [Hempty | Hin]; [contradiction |].
  destruct (camera_name_of_file _ Hin) as (Hcam & Hround).
  repeat split.
  - exact Hcam.
  - intros Hcn. rewrite Hcn in Hround. cbn in Hround. congruence.
  - rewrite Hround.
    exact (proj1 (proj1 (Hiff _ Hin) eq_refl)).
Qed.

Lemma frame_from_filename_has_camera_name_witness :
  get_camera_name_from_frame_name
    (frame_from_filename "20190401121727_lidar_sideleft_000000080.npz")
  <> EmptyString.
Proof.
  refine (proj1 (proj2 (frame_from_filename_has_camera_name
            "20190401121727_lidar_sideleft_000000080.npz" _))).
  vm_compute. discriminate.
Defined.

(** X6. [get_unit_enum] returns [UNKNOWN] exactly for the strings that
    are none of its seven unit names, and it maps different unit names to
    different units. *)
Theorem get_unit_enum_spec :
  (forall name, get_unit_enum name = Units_UNKNOWN <-> ~ In name unit_names)
  /\ (forall name1 name2,
         In name1 unit_names -> In name2 unit_names ->
         get_unit_enum name1 = get_unit_enum name2 -> name1 = name2).
Proof.
  split.
  - intros name. unfold get_unit_enum, unit_names.
    repeat match goal with
      | |- context [String.eqb name ?u] =>
          destruct (String.eqb_spec name u) as [-> | ?]
      end;
      (split; [intros Hu; try discriminate Hu | intros Hn]);
      cbn in *; try tauto; try (exfalso; apply Hn; tauto).
    intros Hin. in_cases Hin; congruence.
  - intros name1 name2 H1 H2. cbn in H1, H2.
    in_cases H1; in_cases H2; vm_compute; intros Heq;
      try reflexivity; discriminate Heq.
Qed.

Lemma get_unit_enum_spec_witness :
  get_unit_enum "Unit_Volt" = Units_UNKNOWN.
Proof.
  refine (proj2 (proj1 get_unit_enum_spec "Unit_Volt"%string) _).
  cbn. intuition discriminate.
Defined.

(** ** Indices and flags of a point cloud *)

(** X7. In a grid of [height] rows and [width] columns whose cells can be
    counted in a [size_t], [flatten_2d_index] does not wrap: the index of
    the cell [(row, col)] is [row * width + col], it is below
    [height * width], and the row and the column are recovered from it by
    division and remainder, so that different cells have different
    indices. *)
Theorem flatten_2d_index_grid (height width row col : Z) :
  0 <= row < height -> 0 <= col < width -> height * width <= 2 ^ 64 ->
  flatten_2d_index width row col = row * width + col
  /\ 0 <= flatten_2d_index width row col < height * width
  /\ flatten_2d_index width row col / width = row
  /\ flatten_2d_index width row col mod width = col
  /\ (forall row' col',
         0 <= row' < height -> 0 <= col' < width ->
         flatten_2d_index width row' col' = flatten_2d_index width row col ->
         row' = row /\ col' = col).
Proof.
  intros Hrow Hcol Hfit.
  assert (Hflat : forall r c, 0 <= r < height -> 0 <= c < width ->
            flatten_2d_index width r c = r * width + c
            /\ 0 <= r * width + c < height * width).
  { intros r c Hr Hc. unfold flatten_2d_index, to_uint64.
    assert (Hb : 0 <= r * width + c < height * width) by nia.
    rewrite (Z.mod_small (r * width)) by nia.
    rewrite Z.mod_small by lia. now split. }
  assert (Hinv : forall r c, 0 <= r < height -> 0 <= c < width ->
            (r * width + c) / width = r /\ (r * width + c) mod width = c).
  { intros r c Hr Hc. split.
    - rewrite Z.div_add_l by lia. rewrite Z.div_small by lia. lia.
    - rewrite Z.add_comm, Z.mod_add by lia. now apply Z.mod_small. }
  destruct (Hflat row col Hrow Hcol) as (Heq & Hb).
  destruct (Hinv row col Hrow Hcol) as (Hq & Hr).
  rewrite Heq. repeat apply conj; try assumption; try lia.
  intros row' col' Hrow' Hcol' Hsame.
  destruct (Hflat row' col' Hrow' Hcol') as (Heq' & _).
  destruct (Hinv row' col' Hrow' Hcol') as (Hq' & Hr').
  rewrite Heq' in Hsame. rewrite Hsame in Hq', Hr'. lia.
Qed.

Lemma flatten_2d_index_grid_witness :
  flatten_2d_index 1920 3 5 = 3 * 1920 + 5.
Proof.
  refine (proj1 (flatten_2d_index_grid 1208 1920 3 5 _ _ _)); lia.
Defined.

Section ValidFlagFacts.



End ValidFlagFacts.



(** ** Timestamps and pairs, beyond the range check *)

(** X9. [a2d2_timestamp_to_ros_time] returns a time for every
    [uint64_t]: the constructor of [ros::Time], which throws when its
    nanoseconds carry the seconds out of 32 bits, never throws here.  The
    time is normalised, with fewer than 10^9 nanoseconds, a whole number
    of microseconds.  [DataPair::build] therefore returns a pair for
    every timestamp, with sequence number 0 and the frame and value it was
    given. *)
Theorem a2d2_timestamp_to_ros_time_total (us : Z) :
  is_uint64 us ->
  (exists t,
      a2d2_timestamp_to_ros_time us = Some t
      /\ ros.normalized t
      /\ ros.nsec t mod 1000 = 0)
  /\ (forall (v : float) (f : string),
         exists p,
           DataPair_build v us f = Some p
           /\ a2d2_timestamp_to_ros_time us = Some (stamp_of p)
           /\ std_msgs.seq (header p) = 0
           /\ std_msgs.frame_id (header p) = f
           /\ std_msgs.data (value p) = v).
Proof.
  intros Hus.
  pose proof (a2d2_timestamp_to_ros_time_eq us Hus) as Heq.
  destruct (conversion_steps us Hus) as (_ & _ & Hns).
  split.
  - eexists. split; [exact Heq |].
    unfold ros.normalized, is_uint32, to_uint32, ONE_MILLION, ONE_THOUSAND in *.
    cbn [ros.sec ros.nsec]. repeat split.
    + apply Z.mod_pos_bound. lia.
    + apply Z.mod_pos_bound. lia.
    + lia.
    + lia.
    + apply Z.mod_mul. lia.
  - intros v f. rewrite (DataPair_build_eq v us f Hus).
    eexists. split; [reflexivity |]. cbn. now rewrite Heq.
Qed.

Lemma a2d2_timestamp_to_ros_time_total_witness :
  exists t, a2d2_timestamp_to_ros_time (2 ^ 64 - 1) = Some t
            /\ ros.normalized t /\ ros.nsec t mod 1000 = 0.
Proof.
  refine (proj1 (a2d2_timestamp_to_ros_time_total (2 ^ 64 - 1) _)).
  unfold is_uint64. lia.
Defined.

(** X10. On the timestamps that [valid_ros_timestamp] accepts the
    conversion loses nothing: the time holds [1000 * us] nanoseconds, two
    timestamps convert to the same time only when they are equal, and
    [operator<] on the times is the order of the timestamps. *)
Theorem a2d2_timestamp_to_ros_time_monotone (us1 us2 : Z) (t1 t2 : ros.Time) :
  is_uint64 us1 -> is_uint64 us2 ->
  valid_ros_timestamp us1 = true -> valid_ros_timestamp us2 = true ->
  a2d2_timestamp_to_ros_time us1 = Some t1 ->
  a2d2_timestamp_to_ros_time us2 = Some t2 ->
  ros.toNSec t1 = 1000 * us1
  /\ ros.lt t1 t2 = (us1 <? us2)
  /\ (t1 = t2 -> us1 = us2).
Proof.
  intros Hu1 Hu2 Hv1 Hv2 Ht1 Ht2.
  assert (Hconv : forall us t, is_uint64 us -> valid_ros_timestamp us = true ->
            a2d2_timestamp_to_ros_time us = Some t ->
            ros.normalized t /\ ros.toNSec t = 1000 * us).
  { intros us t Hu Hv Ht.
    destruct (DataPair_build_stamp 0%float us EmptyString
                (mkDataPair (std_msgs.mkHeader 0 t EmptyString)
                            (std_msgs.mkFloat64 0%float)) Hu)
      as (Hn & Hns).
    - unfold DataPair_build. now rewrite Ht.
    - specialize (Hns Hv). cbn in Hns. split; [exact Hn | lia]. }
  destruct (Hconv us1 t1 Hu1 Hv1 Ht1) as (Hn1 & Hs1).
  destruct (Hconv us2 t2 Hu2 Hv2 Ht2) as (Hn2 & Hs2).
  repeat split.
  - exact Hs1.
  - rewrite (ros_lt_toNSec t1 t2 Hn1 Hn2), Hs1, Hs2.
    destruct (Z.ltb_spec (1000 * us1) (1000 * us2)), (Z.ltb_spec us1 us2);
      try reflexivity; lia.
  - intros Heq. subst t2. lia.
Qed.

Lemma a2d2_timestamp_to_ros_time_monotone_witness :
  ros.lt (ros.mkTime 1554122338 652775000) (ros.mkTime 1554122338 652776000)
  = (1554122338652775 <? 1554122338652776).
Proof.
  refine (proj1 (proj2 (a2d2_timestamp_to_ros_time_monotone
                          1554122338652775 1554122338652776 _ _ _ _ _ _ _ _)));
    try reflexivity; unfold is_uint64; lia.
Defined.

(** X11. Past the range the conversion wraps around: a timestamp and the
    timestamp 2^32 seconds later convert to the same time, although
    [valid_ros_timestamp] rejects the later one; [DataPair::build], which
    does not check the range, builds pairs with equal stamps from them. *)
Theorem a2d2_timestamp_to_ros_time_aliases (us : Z) :
  is_uint64 us -> is_uint64 (us + 4294967296000000) ->
  a2d2_timestamp_to_ros_time (us + 4294967296000000)
  = a2d2_timestamp_to_ros_time us
  /\ valid_ros_timestamp (us + 4294967296000000) = false
  /\ (forall (v : float) (f : string),
         DataPair_build v (us + 4294967296000000) f = DataPair_build v us f).
Proof.
  intros Hus Hlate.
  assert (Hsame : a2d2_timestamp_to_ros_time (us + 4294967296000000)
                  = a2d2_timestamp_to_ros_time us).
  { rewrite (a2d2_timestamp_to_ros_time_eq _ Hus),
            (a2d2_timestamp_to_ros_time_eq _ Hlate).
    unfold ONE_MILLION, ONE_THOUSAND, to_uint32.
    replace (us + 4294967296000000) with (us + 4294967296 * 1000000) by lia.
    rewrite Z.div_add, Z.mod_add by lia.
    replace (us / 1000000 + 4294967296)
      with (us / 1000000 + 1 * 2 ^ 32) by lia.
    now rewrite Z.mod_add by lia. }
  repeat split.
  - exact Hsame.
  - apply valid_ros_timestamp_late. unfold is_uint64 in Hus. lia.
  - intros v f. unfold DataPair_build. now rewrite Hsame.
Qed.

Lemma a2d2_timestamp_to_ros_time_aliases_witness :
  a2d2_timestamp_to_ros_time (7 + 4294967296000000)
  = a2d2_timestamp_to_ros_time 7.
Proof.
  refine (proj1 (a2d2_timestamp_to_ros_time_aliases 7 _ _));
    unfold is_uint64; lia.
Defined.

(** ** The validator as a whole *)

Section ValidatorOutcomeFacts.


(** When the loop body lets a field pass. *)
Lemma field_check_pass_iff (rows : Z) (name : string) (a : cnpy.NpyArray) :
  name <> points_name ->
  field_check rows (name, a) = Pass <->
  one_dimensional a /\ rows_match rows a /\ ~ sign_violation name a
  /\ (name = timestamp_name ->
      Forall (fun d => valid_ros_timestamp (to_uint64 d) = true)
             (visited a (cnpy.data_int64 a))).
Proof.
  intros Hnp. rewrite field_check_eq, <- sign_error_of_iff.
  unfold one_dimensional, rows_match.
  destruct (String.eqb_spec name points_name) as [| _]; [contradiction |].
  destruct (Nat.eqb_spec (List.length (cnpy.shape a)) 1) as [Hd | Hd];
    cbn [negb]; [| split; [discriminate | tauto]].
  destruct (Z.eqb_spec (dim (cnpy.shape a) 0) rows) as [Hr | Hr];
    cbn [negb]; [| split; [discriminate | tauto]].
  destruct (sign_error_of name a);
    [split; [discriminate | intros (_ & _ & H & _); now destruct H] |].
  destruct (String.eqb_spec name timestamp_name) as [Hts | Hts].
  - destruct (first_unsupported_timestamp _) as [t |] eqn:Ht.
    + split; [discriminate |]. intros (_ & _ & _ & Hall).
      specialize (Hall Hts).
      apply first_unsupported_timestamp_none in Hall. congruence.
    + apply first_unsupported_timestamp_none in Ht.
      split; [intros _ | reflexivity].
      split; [exact Hd | split; [exact Hr | split]];
        [discriminate | intros _; exact Ht].
  - split; [intros _ | reflexivity].
    split; [exact Hd | split; [exact Hr | split]];
      [discriminate | intros Heq; contradiction].
Qed.

Lemma passes_points_checks_update (m : NpzMap) (rows : Z) (key : string)
  (f : cnpy.NpyArray -> cnpy.NpyArray) :
  (forall a, cnpy.shape (f a) = cnpy.shape a) ->
  passes_points_checks m rows ->
  passes_points_checks (map_update m key f) rows.
Proof.
  intros Hshape (Hlen & Hpres & points & Hfind & Hpts).
  split; [now rewrite map_update_length | split].
  - intros g Hg. rewrite map_find_update.
    specialize (Hpres g Hg). now destruct (map_find m g).
  - rewrite map_find_update, Hfind. eexists. split; [reflexivity |].
    destruct (String.eqb points_name key); [now rewrite Hshape | exact Hpts].
Qed.

Lemma map_update_In (m : NpzMap) (key : string)
  (f : cnpy.NpyArray -> cnpy.NpyArray) (name : string) (b : cnpy.NpyArray) :
  In (name, b) (map_update m key f) ->
  exists a, In (name, a) m /\ b = (if String.eqb name key then f a else a).
Proof.
  unfold map_update. intros Hin. apply in_map_iff in Hin.
  destruct Hin as ([k a] & Heq & Hin). cbn [fst snd] in Heq.
  destruct (String.eqb k key) eqn:Hk; injection Heq as <- <-;
    exists a; now rewrite Hk.
Qed.

Lemma get_fields_NoDup : NoDup npz.Fields.get_fields.
Proof. cbn. repeat constructor; cbn; intuition discriminate. Qed.

End ValidatorOutcomeFacts.



(** X14. A dataset that validates holds the fields of the schema and no
    other: every key of the map is one of the 12 field names, and no key
    occurs twice. *)
Theorem verify_npz_structure_keys (m : NpzMap) :
  verify_npz_structure m = true ->
  (forall name a, In (name, a) m -> In name npz.Fields.get_fields)
  /\ Permutation npz.Fields.get_fields (map fst m)
  /\ NoDup (map fst m).
Proof.
  intros Hok. unfold verify_npz_structure in Hok.
  destruct (verify_npz_structure_log m) eqn:Hlog; try discriminate.
  destruct (verify_log_points_inv m Pass Hlog)
    as (rows & (Hlen & Hpres & _) & _).
  assert (Hincl : incl npz.Fields.get_fields (map fst m)).
  { intros f Hf. specialize (Hpres f Hf).
    destruct (map_find m f) as [a |] eqn:Hfind; [| contradiction].
    apply map_find_In in Hfind. now apply (in_map fst) in Hfind. }
  assert (Hperm : Permutation npz.Fields.get_fields (map fst m)).
  { apply NoDup_Permutation_bis; [apply get_fields_NoDup | | exact Hincl].
    rewrite length_map, Hlen. cbn. lia. }
  repeat split.
  - intros name a Hin. apply (Permutation_in _ (Permutation_sym Hperm)).
    now apply (in_map fst) in Hin.
  - exact Hperm.
  - apply (Permutation_NoDup Hperm), get_fields_NoDup.
Qed.


Lemma verify_npz_structure_keys_witness :
  Permutation npz.Fields.get_fields (map fst sample_dataset).
Proof.
  refine (proj1 (proj2 (verify_npz_structure_keys sample_dataset _))).
  reflexivity.
Defined.

Section UnreadFacts.

Lemma In_firstn {T : Type} (n : nat) (l : list T) (x : T) :
  In x (firstn n l) -> In x l.
Proof.
  intros Hin. rewrite <- (firstn_skipn n l). apply in_or_app. now left.
Qed.

Lemma check_field_not_sign_checked (pts : list Z) (name : string)
  (ints : list Z) (points : list float) (a : cnpy.NpyArray) :
  int64_checked name = false -> Point_checked name = false ->
  check_field npz.Fields.get_fields points_name pts
              (name, with_data ints points a)
  = check_field npz.Fields.get_fields points_name pts (name, a).
Proof.
  unfold int64_checked, Point_checked. intros Hi Hp.
  apply orb_false_iff in Hi. destruct Hi as (Hi & Hlid).
  apply orb_false_iff in Hi. destruct Hi as (Hts & Hrec).
  apply orb_false_iff in Hp. destruct Hp as (Hdep & Hdis).
  unfold check_field.
  cbn [fst snd npz.Fields.field npz.Fields.get_fields nth
       npz.Fields.TIMESTAMP_IDX npz.Fields.RECTIME_IDX npz.Fields.ID_IDX
       npz.Fields.DEPTH_IDX npz.Fields.DISTANCE_IDX with_data cnpy.shape].
  fold timestamp_name rectime_name lidar_id_name depth_name distance_name.
  now rewrite Hts, Hrec, Hlid, Hdep, Hdis.
Qed.

Lemma for_each_field_not_sign_checked (pts : list Z) (name : string)
  (ints : list Z) (points : list float) (m : NpzMap) :
  int64_checked name = false -> Point_checked name = false ->
  for_each_field (check_field npz.Fields.get_fields points_name pts)
                 (map_update m name (with_data ints points))
  = for_each_field (check_field npz.Fields.get_fields points_name pts) m.
Proof.
  intros Hi Hp. induction m as [| [k a] t IH]; cbn; [reflexivity |].
  destruct (String.eqb_spec k name) as [-> | _]; cbn [fst snd].
  - rewrite (check_field_not_sign_checked pts name ints points a Hi Hp).
    now rewrite <- IH.
  - now rewrite <- IH.
Qed.

End UnreadFacts.

(** X15. The validator reads the elements of five fields only.  For a
    key that is none of timestamp, rectime, lidar_id, depth and distance,
    among them azimuth, boundary, reflectance, valid and the points
    array itself, replacing the elements of the array under the key,
    with its shape kept, does not change the outcome. *)
Theorem verify_npz_structure_unread_fields
  (m : NpzMap) (name : string) (ints : list Z) (points : list float) :
  int64_checked name = false -> Point_checked name = false ->
  verify_npz_structure_log (map_update m name (with_data ints points))
  = verify_npz_structure_log m.
Proof.
  intros Hi Hp. unfold verify_npz_structure_log.
  rewrite map_update_length, find_missing_update, map_find_update.
  change (npz.Fields.field npz.Fields.get_fields npz.Fields.POINTS_IDX)
    with points_name.
  destruct (negb (Nat.eqb _ _)); [reflexivity |].
  destruct (find _ _); [reflexivity |].
  destruct (map_find m points_name) as [pts |]; [| reflexivity].
  assert (Hshape : cnpy.shape (if String.eqb points_name name
                               then with_data ints points pts else pts)
                   = cnpy.shape pts)
    by (now destruct (String.eqb points_name name)).
  rewrite Hshape.
  destruct (negb (Nat.eqb _ 2)); [reflexivity |].
  destruct (negb (_ =? 3)); [reflexivity |].
  now apply for_each_field_not_sign_checked.
Qed.

Lemma verify_npz_structure_unread_fields_witness :
  verify_npz_structure_log
    (map_update sample_dataset points_name (with_data [] []))
  = verify_npz_structure_log sample_dataset.
Proof.
  refine (verify_npz_structure_unread_fields sample_dataset points_name [] []
            _ _); reflexivity.
Defined.

(** X16. The range of the rectime field is not checked: in a dataset
    that validates, the elements of rectime can be replaced by any
    non-negative values, also by values that are not valid ROS
    timestamps, and the dataset still validates. *)
Theorem verify_npz_structure_rectime_unbounded
  (m : NpzMap) (ints : list Z) (points : list float) :
  verify_npz_structure m = true ->
  Forall (fun d => 0 <= d) ints ->
  verify_npz_structure (map_update m rectime_name (with_data ints points))
  = true.
Proof.
  intros Hok Hnn. unfold verify_npz_structure in *.
  destruct (verify_npz_structure_log m) eqn:Hlog; try discriminate.
  destruct (verify_log_points_inv m Pass Hlog) as (rows & Hpts & Hloop).
  apply for_each_field_pass in Hloop. rewrite Forall_forall in Hloop.
  rewrite (verify_log_loop _ rows
             (passes_points_checks_update m rows rectime_name
                (with_data ints points) (fun a => eq_refl) Hpts)).
  assert (Hpass : for_each_field (field_check rows)
                    (map_update m rectime_name (with_data ints points))
                  = Pass).
  { apply for_each_field_pass, Forall_forall. intros [name b] Hin.
    apply map_update_In in Hin. destruct Hin as (a & Hin & ->).
    specialize (Hloop _ Hin).
    destruct (String.eqb_spec name rectime_name) as [-> | Hne];
      [| exact Hloop].
    apply field_check_pass_iff; [discriminate |].
    apply field_check_pass_iff in Hloop; [| discriminate].
    destruct Hloop as (Hone & Hrows & _ & _).
    split; [exact Hone | split; [exact Hrows | split]].
    - intros [(_ & v & Hv & Hneg) | ([Hd | Hd] & _)]; try discriminate.
      unfold visited in Hv. cbn [with_data cnpy.data_int64] in Hv.
      apply In_firstn in Hv. rewrite Forall_forall in Hnn.
      specialize (Hnn v Hv). lia.
    - discriminate. }
  now rewrite Hpass.
Qed.

Lemma verify_npz_structure_rectime_unbounded_witness :
  verify_npz_structure
    (map_update sample_dataset rectime_name
       (with_data [4294967296000000; 2 ^ 63 - 1; 0] []))
  = true.
Proof.
  refine (verify_npz_structure_rectime_unbounded sample_dataset _ _ _ _).
  - reflexivity.
  - repeat constructor; lia.
Defined.

(** ** Rejected axes stop the program *)

(** X17. A pair of axes that [axes_are_valid] rejects never passes
    [VERIFY_BASIS_ORIGIN]: the basis built from it is the zero matrix,
    which [isZero(0.0)] detects, whatever the origin is.  An origin whose
    norm is not finite is rejected whatever the basis is. *)
Theorem VERIFY_BASIS_ORIGIN_rejects
  (X Y origin : Eigen.Vector3d) (epsilon : float) :
  (axes_are_valid X Y epsilon = false ->
   VERIFY_BASIS_ORIGIN (get_orthonormal_basis X Y epsilon) origin = false)
  /\ (vector_is_valid origin = false ->
      VERIFY_BASIS_ORIGIN (get_orthonormal_basis X Y epsilon) origin = false).
Proof.
  split.
  - intros Hinv. rewrite (get_orthonormal_basis_invalid X Y epsilon Hinv).
    unfold VERIFY_BASIS_ORIGIN.
    change (Eigen.isZero Eigen.setZero 0) with true.
    now destruct (negb (vector_is_valid origin)).
  - intros Hinv. unfold VERIFY_BASIS_ORIGIN. now rewrite Hinv.
Qed.

Lemma VERIFY_BASIS_ORIGIN_rejects_witness :
  VERIFY_BASIS_ORIGIN
    (get_orthonormal_basis (Eigen.mkVector3d 1 0 0) (Eigen.mkVector3d 1 0 0)
                           EPS)
    (Eigen.mkVector3d 0 0 0)
  = false.
Proof.
  refine (proj1 (VERIFY_BASIS_ORIGIN_rejects
                   (Eigen.mkVector3d 1 0 0) (Eigen.mkVector3d 1 0 0)
                   (Eigen.mkVector3d 0 0 0) EPS) _).
  reflexivity.
Defined.
